(** * MediConnect credential verification pipeline

  A shallow embedding of the two verification lambdas of the repository,

    - [legacy_lambdas/DoctorDiplomaScanner] ([diploma_scanner.py],
      [handler.py]): the keyword based diploma scan and its handler;
    - [legacy_lambdas/verify-identity] ([lambda_function.py]): the
      selfie-versus-ID-card identity check;

  together with the properties their design document states about them.

  Python strings are sequences of code points; the embedding keeps the
  code points below 256 (Rocq's [ascii]), on which [\w], [\b] and
  [re.IGNORECASE] are tabulated exactly as CPython's [re] has them.
  AWS services are modelled by what the handlers observe of them: a call
  either returns or raises, and the image and record stores keep state. *)

From Stdlib Require Import ZArith QArith Ascii String List Bool Lia.
From Stdlib Require Import Numbers.DecimalString.
From stdpp Require Import gmap strings list.

Import ListNotations.
Local Open Scope bool_scope.
Local Open Scope string_scope.
Local Open Scope list_scope.

(* ===================================================================== *)
(** * Python text primitives *)
(* ===================================================================== *)

Module PyText.

(** Code point of a character. *)
Definition ord (c : ascii) : N := N_of_ascii c.

Definition in_range (lo hi n : N) : bool := (lo <=? n)%N && (n <=? hi)%N.

(** [\w] of a [str] pattern: [str.isalnum()] or the underscore. *)
Definition is_word (c : ascii) : bool :=
  let n := ord c in
  in_range 48 57 n || in_range 65 90 n || (n =? 95)%N || in_range 97 122 n
  || (n =? 170)%N || in_range 178 179 n || (n =? 181)%N
  || in_range 185 186 n || in_range 188 190 n
  || in_range 192 214 n || in_range 216 246 n || in_range 248 255 n.

(** Simple lower-casing, as [re.IGNORECASE] applies it to each character. *)
Definition is_upper (c : ascii) : bool :=
  let n := ord c in
  in_range 65 90 n || in_range 192 214 n || in_range 216 222 n.

Definition lower (c : ascii) : ascii :=
  if is_upper c then ascii_of_N (ord c + 32) else c.

(** A literal pattern character against a text character under
    [re.IGNORECASE]. *)
Definition ci_char_eq (p x : ascii) : bool :=
  (ord (lower p) =? ord (lower x))%N.

(** [sep.join(parts)] *)
Fixpoint join (sep : string) (parts : list string) : string :=
  match parts with
  | [] => ""
  | [p] => p
  | p :: rest => p +:+ sep +:+ join sep rest
  end.

(** [s[:n]] *)
Definition slice_to (n : nat) (s : string) : string := String.substring 0 n s.

(** [s.split(sep)] for a one-character separator: never empty. *)
Fixpoint split (sep : ascii) (s : string) : list string :=
  match s with
  | EmptyString => [""]
  | String c s' =>
      if Ascii.eqb c sep then "" :: split sep s'
      else match split sep s' with
           | [] => [String c ""]
           | w :: ws => String c w :: ws
           end
  end.

End PyText.

(* ===================================================================== *)
(** * The fragment of [re] the scanner uses *)
(* ===================================================================== *)

Module Re.
Import PyText.

(** A pattern is a sequence of items; the scanner builds
    [\b] + [re.escape(keyword)] + [\b]. *)
Inductive item : Type :=
| WordBoundary
| Literal (c : ascii).

(** [re.escape] turns every character of its argument into a literal. *)
Definition escape (s : string) : list item :=
  map Literal (list_ascii_of_string s).

Definition word_before (prev : option ascii) : bool :=
  match prev with Some c => is_word c | None => false end.

Definition word_after (rest : list ascii) : bool :=
  match rest with c :: _ => is_word c | [] => false end.

(** [\b]: exactly one side of the position is a word character; the
    outside of the text counts as a non-word character. *)
Definition at_boundary (prev : option ascii) (rest : list ascii) : bool :=
  xorb (word_before prev) (word_after rest).

(** Match the pattern at the current position; [prev] is the character
    just before it, if any. *)
Fixpoint match_here (p : list item) (prev : option ascii)
         (rest : list ascii) : bool :=
  match p with
  | [] => true
  | WordBoundary :: p' => at_boundary prev rest && match_here p' prev rest
  | Literal c :: p' =>
      match rest with
      | x :: rest' => ci_char_eq c x && match_here p' (Some x) rest'
      | [] => false
      end
  end.

(** Try every start position, left to right. *)
Fixpoint search_from (p : list item) (prev : option ascii)
         (rest : list ascii) : bool :=
  match_here p prev rest
  || match rest with
     | x :: rest' => search_from p (Some x) rest'
     | [] => false
     end.

(** [bool(re.search(pattern, text, re.IGNORECASE))] *)
Definition search (p : list item) (text : string) : bool :=
  search_from p None (list_ascii_of_string text).

End Re.

(* ===================================================================== *)
(** * diploma_scanner.py: the keyword check *)
(* ===================================================================== *)

Module DiplomaScanner.
Import PyText.

Definition required_keywords : list string :=
  ["Doctor"; "Medicine"; "License"; "Board"; "MD"; "Surgeon"; "Medical";
   "Surgery"; "Degree"; "Diploma"].

Definition keyword_pattern (keyword : string) : list Re.item :=
  [Re.WordBoundary] ++ Re.escape keyword ++ [Re.WordBoundary].

(** One turn of the [for keyword in required_keywords] loop on the pair
    [(match_count, matches_found)]. *)
Definition scan_step (full_text : string) (acc : Z * list string)
           (keyword : string) : Z * list string :=
  let '(match_count, matches_found) := acc in
  if Re.search (keyword_pattern keyword) full_text
  then ((match_count + 1)%Z, matches_found ++ [keyword])
  else (match_count, matches_found).

Definition scan_loop (full_text : string) : Z * list string :=
  fold_left (scan_step full_text) required_keywords (0%Z, []).

(** The dictionary [scan_diploma] returns: the error shape of the
    [except] branch, or the success shape. *)
Inductive scan_result : Type :=
| ScanError (message : string)
| ScanSuccess (verification_passed : bool)
              (confidence_matches : list string)
              (extracted_text_snippet : string).

Definition result_status (r : scan_result) : string :=
  match r with ScanError _ => "error" | ScanSuccess _ _ _ => "success" end.

(** [scan_result['verification_passed']] *)
Definition result_passed (r : scan_result) : bool :=
  match r with ScanError _ => false | ScanSuccess p _ _ => p end.

(** Lines 38-60: the decision on the extracted text. *)
Definition verify_text (full_text : string) : scan_result :=
  let '(match_count, matches_found) := scan_loop full_text in
  let is_valid := (1 <=? match_count)%Z in
  ScanSuccess is_valid matches_found (slice_to 200 full_text).

(** A Textract block, and the response ([None]: no ['Blocks'] key). *)
Record block : Type := { BlockType : string; Text : string }.

Definition textract_response : Type := option (list block).

(** Lines 29-35. *)
Definition detected_text (response : textract_response) : list string :=
  match response with
  | Some blocks =>
      map Text (List.filter (fun b => String.eqb (BlockType b) "LINE") blocks)
  | None => []
  end.

Definition full_text_of (response : textract_response) : string :=
  join " " (detected_text response).

End DiplomaScanner.

(* ===================================================================== *)
(** * Python values, and [base64.b64decode] *)
(* ===================================================================== *)

Module PyVal.

(** The scalar values a decoded JSON body field or a record attribute
    holds. *)
Inductive pyval : Type :=
| PNone
| PBool (b : bool)
| PInt (z : Z)
| PStr (s : string).

#[global] Instance pyval_eq_dec : EqDecision pyval.
Proof. solve_decision. Defined.

Definition pyval_to_sum (v : pyval) : unit + bool + Z + string :=
  match v with
  | PNone => inl (inl (inl tt))
  | PBool b => inl (inl (inr b))
  | PInt z => inl (inr z)
  | PStr s => inr s
  end.

Definition pyval_of_sum (x : unit + bool + Z + string) : pyval :=
  match x with
  | inl (inl (inl _)) => PNone
  | inl (inl (inr b)) => PBool b
  | inl (inr z) => PInt z
  | inr s => PStr s
  end.

#[global] Instance pyval_countable : Countable pyval.
Proof.
  apply (inj_countable' pyval_to_sum pyval_of_sum).
  intros []; reflexivity.
Defined.

(** [bool(v)] *)
Definition truthy (v : pyval) : bool :=
  match v with
  | PNone => false
  | PBool b => b
  | PInt z => negb (z =? 0)%Z
  | PStr s => negb (String.eqb s "")
  end.

(** [f"{q:.2f}"]: two decimals, ties to even. *)
Definition round_half_even (q : Q) : Z :=
  let d := Z.pos (Qden q) in
  let fl := (Qnum q / d)%Z in
  let r2 := (2 * (Qnum q mod d))%Z in
  if (r2 <? d)%Z then fl
  else if (d <? r2)%Z then (fl + 1)%Z
  else if Z.even fl then fl else (fl + 1)%Z.

Definition two_digits (n : Z) : string :=
  NilZero.string_of_int (Z.to_int (n / 10)) +:+
  NilZero.string_of_int (Z.to_int (n mod 10)).

Definition format_2f (q : Q) : string :=
  let n := Z.abs (round_half_even (q * 100)%Q) in
  (if (Qnum q <? 0)%Z then "-" else "") +:+
  NilZero.string_of_int (Z.to_int (n / 100)) +:+ "." +:+
  two_digits (n mod 100).

(** [str(v)], as an f-string interpolates it. *)
Definition py_str (v : pyval) : string :=
  match v with
  | PNone => "None"
  | PBool true => "True"
  | PBool false => "False"
  | PInt z => NilZero.string_of_int (Z.to_int z)
  | PStr s => s
  end.

(** A JSON object after [json.loads]: keys are distinct, the first
    binding of a key is the one [get] sees. *)
Definition pydict : Type := list (string * pyval).

Fixpoint lookup_key (d : pydict) (k : string) : option pyval :=
  match d with
  | [] => None
  | (k', v) :: d' => if String.eqb k' k then Some v else lookup_key d' k
  end.

(** [k in d] *)
Definition has_key (d : pydict) (k : string) : bool :=
  match lookup_key d k with Some _ => true | None => false end.

(** [d.get(k, dflt)] *)
Definition get_default (d : pydict) (k : string) (dflt : pyval) : pyval :=
  match lookup_key d k with Some v => v | None => dflt end.

(** [d.get(k)] *)
Definition get (d : pydict) (k : string) : pyval := get_default d k PNone.

End PyVal.

Module Base64.
Import PyText PyVal.

(** [table_a2b_base64]: the value of a character of the alphabet. *)
Definition sextet (c : ascii) : option Z :=
  let n := Z.of_N (ord c) in
  if in_range 65 90 (ord c) then Some (n - 65)%Z
  else if in_range 97 122 (ord c) then Some (n - 71)%Z
  else if in_range 48 57 (ord c) then Some (n + 4)%Z
  else if (ord c =? 43)%N then Some 62%Z
  else if (ord c =? 47)%N then Some 63%Z
  else None.

Definition is_pad (c : ascii) : bool := (ord c =? 61)%N.

(** The decoding loop of [binascii.a2b_base64] with [strict_mode] off:
    characters outside the alphabet are skipped, a pad sequence that
    completes the quad ends the input, and data left in an incomplete
    quad is an error ([None]). [out] is the output written so far. *)
Fixpoint a2b_loop (data : list ascii) (quad_pos leftchar pads : Z)
         (out : list Z) : option (list Z) :=
  match data with
  | [] => if (quad_pos =? 0)%Z then Some out else None
  | this_ch :: rest =>
      if is_pad this_ch then
        if (2 <=? quad_pos)%Z then
          if (4 <=? quad_pos + (pads + 1))%Z then Some out
          else a2b_loop rest quad_pos leftchar (pads + 1)%Z out
        else a2b_loop rest quad_pos leftchar pads out
      else
        match sextet this_ch with
        | None => a2b_loop rest quad_pos leftchar pads out
        | Some v =>
            if (quad_pos =? 0)%Z then a2b_loop rest 1%Z v 0%Z out
            else if (quad_pos =? 1)%Z then
              a2b_loop rest 2%Z (Z.land v 15) 0%Z
                (out ++ [Z.land (Z.lor (Z.shiftl leftchar 2) (Z.shiftr v 4)) 255])
            else if (quad_pos =? 2)%Z then
              a2b_loop rest 3%Z (Z.land v 3) 0%Z
                (out ++ [Z.land (Z.lor (Z.shiftl leftchar 4) (Z.shiftr v 2)) 255])
            else
              a2b_loop rest 0%Z 0%Z 0%Z
                (out ++ [Z.land (Z.lor (Z.shiftl leftchar 6) v) 255])
        end
  end.

Definition a2b_base64 (s : string) : option (list Z) :=
  a2b_loop (list_ascii_of_string s) 0 0 0 [].

Definition is_ascii (s : string) : bool :=
  forallb (fun c => (ord c <? 128)%N) (list_ascii_of_string s).

(** [base64.b64decode(v)]: [None] when it raises ([TypeError] for a value
    that is no string, [ValueError] for a string with a non-ASCII
    character, [binascii.Error] for bad padding). *)
Definition b64decode (v : pyval) : option (list Z) :=
  match v with
  | PStr s => if is_ascii s then a2b_base64 s else None
  | _ => None
  end.

End Base64.

(* ===================================================================== *)
(** * The runtime: exceptions, early returns, and the AWS collaborators *)
(* ===================================================================== *)

Module Runtime.
Import PyVal.

(** Exceptions the handlers tell apart: only Rekognition's
    [InvalidS3ObjectException] has an [except] clause of its own. *)
Inductive exn : Type :=
| InvalidS3ObjectException (msg : string)
| Exception (msg : string).

(** [str(e)] *)
Definition str_exn (e : exn) : string :=
  match e with InvalidS3ObjectException m | Exception m => m end.

(** What the environment decides about one service call. *)
Inductive call_result (A : Type) : Type :=
| Returns (a : A)
| Fails (msg : string).
Arguments Returns {A} a.
Arguments Fails {A} msg.

Definition returns {A} (r : call_result A) : bool :=
  match r with Returns _ => true | Fails _ => false end.

(** A stored image. *)
Record s3_object : Type :=
  { Body : list Z; ContentType : string; TagSet : list (string * string) }.

(** Service calls, as issued. *)
Inductive call : Type :=
| TextractDetectDocumentText (bucket name : string)
| BigQueryInsertRow (doctor_id event_type status : string)
| DynamoUpdateItem (table_name key_field : string) (key : pyval)
                   (assignments : list (string * pyval))
| SnsPublish (topic_arn message subject : string)
| S3PutObject (bucket key : string) (body : list Z) (content_type : string)
| S3PutObjectTagging (bucket key : string) (tag_set : list (string * string))
| S3GeneratePresignedUrl (bucket key : string) (expires_in : Z)
| RekognitionCompareFaces (bucket name : string) (target : list Z)
                          (similarity_threshold : Q).

(** One entry of the call log: the call and whether it returned. *)
Record logged : Type := { issued : call; returned : bool }.

(** Image store, record store (items by table name and primary key
    value), and the log of calls issued so far, oldest first. *)
Record world : Type :=
  { objects : gmap (string * string) s3_object;
    tables : gmap (string * pyval) (gmap string pyval);
    calls : list logged }.

Definition log (c : call) (ok : bool) (w : world) : world :=
  {| objects := objects w; tables := tables w;
     calls := calls w ++ [{| issued := c; returned := ok |}] |}.

Definition set_objects (o : gmap (string * string) s3_object) (w : world)
  : world :=
  {| objects := o; tables := tables w; calls := calls w |}.

Definition set_tables (t : gmap (string * pyval) (gmap string pyval))
           (w : world) : world :=
  {| objects := objects w; tables := t; calls := calls w |}.

(** How a piece of handler code ends: it falls through with a value, it
    raises, or it executes a [return] of the handler. *)
Inductive outcome (R A : Type) : Type :=
| Normal (a : A)
| Raise (e : exn)
| Return (r : R).
Arguments Normal {R A} a.
Arguments Raise {R A} e.
Arguments Return {R A} r.

Definition M (R A : Type) : Type := world -> outcome R A * world.

Definition ret {R A} (a : A) : M R A := fun w => (Normal a, w).

Definition bind {R A B} (m : M R A) (k : A -> M R B) : M R B :=
  fun w =>
    match m w with
    | (Normal a, w') => k a w'
    | (Raise e, w') => (Raise e, w')
    | (Return r, w') => (Return r, w')
    end.

Definition raise {R A} (e : exn) : M R A := fun w => (Raise e, w).

(** [return r] *)
Definition return_ {R A} (r : R) : M R A := fun w => (Return r, w).

(** [try: m  except ... as e: h e] *)
Definition try_except {R A} (m : M R A) (h : exn -> M R A) : M R A :=
  fun w =>
    match m w with
    | (Raise e, w') => h e w'
    | other => other
    end.

(** A call whose only effect is its log entry. *)
Definition service_call {R A} (c : call) (r : call_result A) : M R A :=
  fun w =>
    match r with
    | Returns a => (Normal a, log c true w)
    | Fails msg => (Raise (Exception msg), log c false w)
    end.

(** What a handler hands back: the argument of [json.dumps], or a plain
    string. *)
Inductive json : Type :=
| JNull
| JBool (b : bool)
| JNum (q : Q)
| JStr (s : string).

Inductive payload : Type :=
| Plain (s : string)
| DumpsStr (s : string)
| DumpsObj (fields : list (string * json)).

(** [headers] is empty for a handler that sets none. *)
Record response : Type :=
  { statusCode : Z; headers : list (string * string); body : payload }.

(** The value of a field of a [json.dumps]'d object in a response. *)
Definition field (r : response) (k : string) : option json :=
  match body r with
  | DumpsObj fields =>
      snd <$> List.find (fun kv => String.eqb (fst kv) k) fields
  | _ => None
  end.

(** Running a handler: [None] is an exception nobody caught. *)
Definition invoke {R} (m : M R R) (w : world) : option R * world :=
  match m w with
  | (Normal r, w') | (Return r, w') => (Some r, w')
  | (Raise _, w') => (None, w')
  end.

Declare Scope py_scope.
Delimit Scope py_scope with py.
Notation "x <- m ;; k" := (bind m (fun x => k))
  (at level 100, m at next level, right associativity) : py_scope.
Notation "m ;; k" := (bind m (fun _ => k))
  (at level 100, right associativity) : py_scope.

(** ** DynamoDB *)

(** [SET] of the assignments, left to right, on an item. *)
Definition apply_assignments (assignments : list (string * pyval))
           (it : gmap string pyval) : gmap string pyval :=
  fold_left (fun acc kv => <[kv.1 := kv.2]> acc) assignments it.

(** [table.update_item(Key={key_field: key}, UpdateExpression="set ...")]:
    an upsert of the named attributes; a call that raises changes
    nothing. *)
Definition update_item {R} (fault : call_result unit)
           (table_name key_field : string) (key : pyval)
           (assignments : list (string * pyval)) : M R unit :=
  fun w =>
    let c := DynamoUpdateItem table_name key_field key assignments in
    match fault with
    | Fails msg => (Raise (Exception msg), log c false w)
    | Returns _ =>
        let old := default {[ key_field := key ]}
                           (tables w !! (table_name, key)) in
        let new := apply_assignments assignments old in
        (Normal tt,
         log c true (set_tables (<[(table_name, key) := new]> (tables w)) w))
    end.

(** ** S3 *)

Definition put_object {R} (fault : call_result unit) (bucket key : string)
           (body : list Z) (content_type : string) : M R unit :=
  fun w =>
    let c := S3PutObject bucket key body content_type in
    match fault with
    | Fails msg => (Raise (Exception msg), log c false w)
    | Returns _ =>
        let o := {| Body := body; ContentType := content_type;
                    TagSet := [] |} in
        (Normal tt,
         log c true (set_objects (<[(bucket, key) := o]> (objects w)) w))
    end.

Definition put_object_tagging {R} (fault : call_result unit)
           (bucket key : string) (tag_set : list (string * string))
  : M R unit :=
  fun w =>
    let c := S3PutObjectTagging bucket key tag_set in
    match fault, objects w !! (bucket, key) with
    | Returns _, Some o =>
        let o' := {| Body := Body o; ContentType := ContentType o;
                     TagSet := tag_set |} in
        (Normal tt,
         log c true (set_objects (<[(bucket, key) := o']> (objects w)) w))
    | Returns _, None => (Raise (Exception "NoSuchKey"), log c false w)
    | Fails msg, _ => (Raise (Exception msg), log c false w)
    end.

Definition generate_presigned_url {R} (signed : call_result string)
           (bucket key : string) (expires_in : Z) : M R string :=
  service_call (S3GeneratePresignedUrl bucket key expires_in) signed.

(** ** Rekognition *)

(** One entry of [FaceMatches]. *)
Record face_match : Type := { Similarity : Q }.

(** [rekognition.compare_faces] with the source image given by its S3
    key: a source object that is not in the bucket raises
    [InvalidS3ObjectException]; otherwise the service compares the faces
    it finds ([faces]: their similarity scores) and lists in
    [FaceMatches] those at or above the threshold. *)
Definition compare_faces {R} (faces : call_result (list Q))
           (bucket name : string) (target : list Z)
           (similarity_threshold : Q) : M R (list face_match) :=
  fun w =>
    let c := RekognitionCompareFaces bucket name target
                                     similarity_threshold in
    match objects w !! (bucket, name) with
    | None =>
        (Raise (InvalidS3ObjectException
                  "Unable to get object metadata from S3."),
         log c false w)
    | Some _ =>
        match faces with
        | Fails msg => (Raise (Exception msg), log c false w)
        | Returns sims =>
            (Normal (map Build_face_match
                         (List.filter (fun s => Qle_bool similarity_threshold s)
                                 sims)),
             log c true w)
        end
    end.

End Runtime.

(* ===================================================================== *)
(** * DoctorDiplomaScanner: [scan_diploma] and [handler.lambda_handler] *)
(* ===================================================================== *)

Module DocumentHandler.
Import PyText PyVal Runtime DiplomaScanner.
Local Open Scope py_scope.

Definition TABLE_NAME : string := "mediconnect-doctors".
Definition SNS_TOPIC_ARN : string :=
  "arn:aws:sns:us-east-1:950110266426:mediconnect-ops-alerts".

(** What the services do during one invocation. *)
Record env : Type :=
  { textract_detect : call_result textract_response;
    bigquery_insert : call_result bool;
    doctors_update : call_result unit;
    sns_publish : call_result unit }.

(** [diploma_scanner.scan_diploma] *)
Definition scan_diploma {R} (svc : call_result textract_response)
           (bucket_name file_key : string) : M R scan_result :=
  attempt <- try_except
    (response <- service_call
                   (TextractDetectDocumentText bucket_name file_key) svc ;;
     ret (Returns response))
    (fun e => ret (Fails (str_exn e))) ;;
  match attempt with
  | Fails message => ret (ScanError message)
  | Returns response => ret (verify_text (full_text_of response))
  end.

(** [gcp_bigquery.record_doctor_event] *)
Definition record_doctor_event {R} (svc : call_result bool)
           (doctor_id event_type status : string) : M R bool :=
  service_call (BigQueryInsertRow doctor_id event_type status) svc.

(** Step 2 of the handler: the doctor id from the object key. *)
Definition doctor_id_of_key (s3_key : string) : string :=
  let parts := split "/" s3_key in
  if (2 <? length parts)%nat && String.eqb (nth 1 parts "") "doctors"
  then nth 2 parts ""
  else if (1 <? length parts)%nat then nth 1 parts ""
  else "unknown_doc".

Definition diploma_update (passed : bool) (s3_bucket s3_key : string)
  : list (string * pyval) :=
  [("isDiplomaAutoVerified", PBool passed);
   ("diplomaUrl", PStr ("s3://" +:+ s3_bucket +:+ "/" +:+ s3_key));
   ("verificationStatus",
    PStr (if passed then "PENDING_REVIEW" else "REJECTED_AUTO"))].

Definition review_message (doctor_id : string) : string :=
  "ACTION REQUIRED: Doctor " +:+ doctor_id +:+
  " has uploaded a diploma. AI Check Passed. Please review and manually approve.".

(** The event, as far as the handler reads it:
    [event['Records'][0]['s3']] with its bucket name and object key, or
    [None] when one of the subscripts raises. *)
Definition event : Type := option (string * string).

Definition lambda_handler (e : env) (ev : event) : M response response :=
  match ev with
  | None =>
      return_ {| statusCode := 400; headers := [];
                 body := Plain "Invalid Event" |}
  | Some (s3_bucket, s3_key) =>
      (* 1. Run the Scan *)
      scan_result <- scan_diploma (textract_detect e) s3_bucket s3_key ;;
      (* 2. Extract Doctor ID *)
      let doctor_id := doctor_id_of_key s3_key in
      let scan_passed := result_passed scan_result in
      let scan_status := if scan_passed then "passed" else "failed" in
      (* 3. Log to BigQuery *)
      try_except
        (record_doctor_event (bigquery_insert e) doctor_id
                             "diploma_verification" scan_status ;;
         ret tt)
        (fun _ => ret tt) ;;
      (* 4. Update DynamoDB *)
      db_message <- try_except
        (if scan_passed then
           update_item (doctors_update e) TABLE_NAME "doctorId"
                       (PStr doctor_id)
                       (diploma_update true s3_bucket s3_key) ;;
           (* 5. Alert the officer *)
           service_call (A := unit)
             (SnsPublish SNS_TOPIC_ARN (review_message doctor_id)
                         "New Doctor Credential Review")
             (sns_publish e) ;;
           ret "DynamoDB Updated & Admin Alerted"
         else
           update_item (doctors_update e) TABLE_NAME "doctorId"
                       (PStr doctor_id)
                       (diploma_update false s3_bucket s3_key) ;;
           ret "DynamoDB Updated (Auto-Rejected)")
        (fun ex => ret ("DynamoDB Update Failed: " +:+ str_exn ex)) ;;
      return_ {| statusCode := 200; headers := [];
                 body := DumpsObj [("message", JStr "Processed");
                                   ("doctor_id", JStr doctor_id);
                                   ("scan_passed", JBool scan_passed);
                                   ("db_status", JStr db_message)] |}
  end.

End DocumentHandler.

(* ===================================================================== *)
(** * verify-identity: [lambda_function.lambda_handler] *)
(* ===================================================================== *)

Module IdentityHandler.
Import PyText PyVal Base64 Runtime.
Local Open Scope py_scope.

Definition BUCKET_NAME : string := "mediconnect-identity-verification".

Definition cors_headers : list (string * string) :=
  [("Access-Control-Allow-Origin", "*");
   ("Access-Control-Allow-Headers", "Content-Type,Authorization");
   ("Access-Control-Allow-Methods", "OPTIONS,POST")].

(** What [json.loads] yields, or what the event carries under ['body']
    when it is no string: a dictionary, or a value of another type. *)
Inductive json_doc : Type :=
| JDict (d : pydict)
| JNotDict (type_name : string).

Inductive event_body : Type :=
| BodyAbsent
| BodyStr (loads : call_result json_doc)
| BodyValue (v : json_doc).

Record event : Type := { httpMethod : pyval; event_body_of : event_body }.

(** What the services do during one invocation. *)
Record env : Type :=
  { put_id_card : call_result unit;
    tag_id_card : call_result unit;
    faces_compared : call_result (list Q);
    put_selfie : call_result unit;
    presigned_url : call_result string;
    profile_update : call_result unit }.

Definition respond (code : Z) (b : payload) : response :=
  {| statusCode := code; headers := cors_headers; body := b |}.

(** Step 2: [json.loads(event['body']) if isinstance(event.get('body'),
    str) else event.get('body', {})]. *)
Definition loaded (ev : event) : call_result json_doc :=
  match event_body_of ev with
  | BodyAbsent => Returns (JDict [])
  | BodyStr loads => loads
  | BodyValue v => Returns v
  end.

(** The body, up to the first [body.get]. *)
Definition parse_body {R} (ev : event) : M R pydict :=
  match loaded ev with
  | Fails msg => raise (Exception msg)
  | Returns (JDict d) => ret d
  | Returns (JNotDict type_name) =>
      raise (Exception ("'" +:+ type_name +:+
                        "' object has no attribute 'get'"))
  end.

(** Role normalisation and table selection (lines 33-39). *)
Definition normalize_role (raw_role : pyval) : pyval :=
  if bool_decide (raw_role = PStr "provider") then PStr "doctor"
  else raw_role.

Definition table_name (user_role : pyval) : string :=
  if bool_decide (user_role = PStr "doctor") then "mediconnect-doctors"
  else "mediconnect-patients".

Definition id_key_field (user_role : pyval) : string :=
  if bool_decide (user_role = PStr "doctor") then "doctorId"
  else "patientId".

Definition id_card_key (user_role user_id : pyval) : string :=
  py_str user_role +:+ "/" +:+ py_str user_id +:+ "/id_card.jpg".

Definition selfie_key (user_role user_id : pyval) : string :=
  py_str user_role +:+ "/" +:+ py_str user_id +:+ "/selfie_verified.jpg".

Definition identity_update (user_role user_id : pyval)
  : list (string * pyval) :=
  [("avatar", PStr (selfie_key user_role user_id));
   ("isIdentityVerified", PBool true);
   ("verificationStatus",
    PStr (if bool_decide (user_role = PStr "doctor")
          then "PENDING_REVIEW" else "VERIFIED"))].

(** [base64.b64decode] inside the handler. *)
Definition decode {R} (v : pyval) : M R (list Z) :=
  match b64decode v with
  | Some bytes => ret bytes
  | None => raise (Exception "Invalid base64 input")
  end.

(** [if 'idImage' in body and body['idImage']] *)
Definition id_image_supplied (d : pydict) : bool :=
  has_key d "idImage" && truthy (get d "idImage").

(** The ID-card upload between step 3 and step 4. *)
Definition save_id_card (e : env) (d : pydict) (key : string)
  : M response unit :=
  if id_image_supplied d then
    try_except
      (id_bytes <- decode (get d "idImage") ;;
       put_object (put_id_card e) BUCKET_NAME key id_bytes "image/jpeg" ;;
       put_object_tagging (tag_id_card e) BUCKET_NAME key
                          [("auto-delete", "true")])
      (fun _ => return_ (respond 500
                   (DumpsStr "Failed to save ID card to S3.")))
  else ret tt.

(** Step 4: [(verification_result, confidence, message)]. *)
Definition run_rekognition (e : env) (key : string) (selfie_bytes : list Z)
  : M response (bool * Q * string) :=
  try_except
    (face_matches <- compare_faces (faces_compared e) BUCKET_NAME key
                                   selfie_bytes 80 ;;
     match face_matches with
     | m :: _ =>
         let confidence := Similarity m in
         ret (true, confidence,
              "Identity Verified. Confidence: " +:+ format_2f confidence
              +:+ "%")
     | [] => ret (false, 0%Q, "Face does not match the provided ID card.")
     end)
    (fun ex =>
       match ex with
       | InvalidS3ObjectException _ =>
           return_ (respond 404
             (DumpsStr "ID Document missing. Please ensure ID is uploaded."))
       | Exception _ =>
           ret (false, 0%Q,
                "Face comparison failed. Ensure images are clear.")
       end).

(** Step 5: [(secure_url_for_frontend, db_status)]. *)
Definition update_database (e : env) (verification_result : bool)
           (user_role user_id : pyval) (selfie_bytes : list Z)
  : M response (option string * string) :=
  if verification_result then
    put_object (put_selfie e) BUCKET_NAME (selfie_key user_role user_id)
               selfie_bytes "image/jpeg" ;;
    secure_url <- generate_presigned_url (presigned_url e) BUCKET_NAME
                    (selfie_key user_role user_id) 3600 ;;
    db_status <- try_except
      (update_item (profile_update e) (table_name user_role)
                   (id_key_field user_role) user_id
                   (identity_update user_role user_id) ;;
       ret "Profile Updated")
      (fun ex => ret ("DB Error: " +:+ str_exn ex)) ;;
    ret (Some secure_url, db_status)
  else ret (None, "Skipped").

Definition lambda_handler (e : env) (ev : event) : M response response :=
  (* 1. CORS Preflight *)
  if bool_decide (httpMethod ev = PStr "OPTIONS") then
    return_ (respond 200 (Plain ""))
  else
  try_except
    ((* 2. Parse Body *)
     body <- parse_body ev ;;
     let user_id := get body "userId" in
     if negb (truthy user_id) then
       return_ (respond 400 (DumpsStr "Missing userId"))
     else
     let raw_role := get_default body "role" (PStr "patient") in
     let user_role := normalize_role raw_role in
     (* 3. Decode Images *)
     if negb (has_key body "selfieImage") then
       return_ (respond 400 (DumpsStr "No selfieImage provided"))
     else
     selfie_bytes <- try_except
       (decode (get body "selfieImage"))
       (fun _ => return_ (respond 400 (DumpsStr "Invalid Selfie Base64"))) ;;
     save_id_card e body (id_card_key user_role user_id) ;;
     (* 4. Run Rekognition *)
     compared <- run_rekognition e (id_card_key user_role user_id)
                                 selfie_bytes ;;
     let '(verification_result, confidence, message) := compared in
     (* 5. Update Database if Verified *)
     updated <- update_database e verification_result user_role user_id
                                selfie_bytes ;;
     let '(secure_url_for_frontend, db_status) := updated in
     return_ (respond 200
       (DumpsObj
          [("verified", JBool verification_result);
           ("confidence", JNum confidence);
           ("message", JStr message);
           ("photoUrl",
            if verification_result
            then match secure_url_for_frontend with
                 | Some u => JStr u
                 | None => JNull
                 end
            else JNull)])))
    (fun ex => return_ (respond 500
                 (DumpsStr ("Server Error: " +:+ str_exn ex)))).

End IdentityHandler.

(* ===================================================================== *)
(** * Whole-word occurrence *)
(* ===================================================================== *)

Module WholeWord.
Import PyText Re DiplomaScanner.

(** ** The design document's reading of the check *)

(** Two character sequences that differ at most in letter case. *)
Definition same_ignoring_case (kw w : list ascii) : Prop :=
  Forall2 (fun a b => lower a = lower b) kw w.

Definition no_word_char_at_end (pre : list ascii) : Prop :=
  forall pre' c, pre = pre' ++ [c] -> is_word c = false.

Definition no_word_char_at_start (post : list ascii) : Prop :=
  forall c post', post = c :: post' -> is_word c = false.

(** The keyword occurs in the text as a word of its own: some occurrence,
    up to letter case, has no word character right before it and none
    right after it, so it is not part of a longer token. *)
Definition occurs_as_whole_word (keyword text : string) : Prop :=
  exists pre mid post,
    list_ascii_of_string text = pre ++ mid ++ post /\
    same_ignoring_case (list_ascii_of_string keyword) mid /\
    no_word_char_at_end pre /\
    no_word_char_at_start post.

(** The character before the position reached after reading [mid]. *)
Definition prev_after (prev : option ascii) (mid : list ascii)
  : option ascii :=
  fold_left (fun _ x => Some x) mid prev.

(** A keyword whose first and last characters are word characters. *)
Definition word_delimited (keyword : string) : bool :=
  match list_ascii_of_string keyword with
  | [] => false
  | c :: _ => is_word c && is_word (List.last (list_ascii_of_string keyword) c)
  end.


End WholeWord.

(* ===================================================================== *)
(** * Observing a run *)
(* ===================================================================== *)

Module Observe.
Import PyVal Runtime.

(** The calls a run adds to the log, oldest first. *)
Definition issued_by {R} (m : M R R) (w : world) : list logged :=
  drop (length (calls w)) (calls (invoke m w).2).

Definition is_record_update (c : call) : bool :=
  match c with DynamoUpdateItem _ _ _ _ => true | _ => false end.

Definition is_notification (c : call) : bool :=
  match c with SnsPublish _ _ _ => true | _ => false end.

(** [verificationStatus] of the record under a key of a table. *)
Definition status_of (w : world) (table : string) (key : pyval)
  : option pyval :=
  tables w !! (table, key) ≫= (fun it => it !! "verificationStatus").




(** The request passes steps 1 to 3 of the identity handler: it is no
    preflight, its body is a dictionary with a truthy [userId] and a
    [selfieImage] that decodes to [selfie_bytes]. *)
Definition accepted (ev : IdentityHandler.event) (d : pydict)
           (selfie_bytes : list Z) : Prop :=
  IdentityHandler.httpMethod ev <> PStr "OPTIONS" /\
  IdentityHandler.loaded ev = Returns (IdentityHandler.JDict d) /\
  truthy (get d "userId") = true /\
  has_key d "selfieImage" = true /\
  Base64.b64decode (get d "selfieImage") = Some selfie_bytes.

(** [user_role] and the key of the ID card, as the handler computes them
    from the body. *)
Definition role_of (d : pydict) : pyval :=
  IdentityHandler.normalize_role (get_default d "role" (PStr "patient")).

Definition reference_key (d : pydict) : string :=
  IdentityHandler.id_card_key (role_of d) (get d "userId").

End Observe.

(* ===================================================================== *)
(** * Concrete runs *)
(* ===================================================================== *)

Module Scenario.
Import PyVal Runtime DiplomaScanner.

Definition empty_world : world :=
  {| objects := ∅; tables := ∅; calls := [] |}.

(** Doctor [d1], already approved by the officer. *)
Definition approved_doctor : world :=
  {| objects := ∅;
     tables := {[ ("mediconnect-doctors", PStr "d1") :=
                    {[ "doctorId" := PStr "d1";
                       "verificationStatus" := PStr "OFFICER_APPROVED" ]} ]};
     calls := [] |}.

(** The same doctor with an ID card on file. *)
Definition approved_doctor_with_id : world :=
  {| objects := {[ ("mediconnect-identity-verification",
                    "doctor/d1/id_card.jpg") :=
                     {| Body := [105; 183; 29]%Z;
                        ContentType := "image/jpeg";
                        TagSet := [("auto-delete", "true")] |} ]};
     tables := tables approved_doctor;
     calls := [] |}.

Definition diploma_upload : DocumentHandler.event :=
  Some ("mediconnect-doctor-data", "uploads/doctors/d1/diploma.png").

Definition lines (texts : list string) : textract_response :=
  Some (map (fun t => {| BlockType := "LINE"; Text := t |}) texts).

Definition diploma_services (tx : call_result textract_response)
  : DocumentHandler.env :=
  {| DocumentHandler.textract_detect := tx;
     DocumentHandler.bigquery_insert := Returns true;
     DocumentHandler.doctors_update := Returns tt;
     DocumentHandler.sns_publish := Returns tt |}.

Definition genuine_diploma : DocumentHandler.env :=
  diploma_services
    (Returns (lines ["This Diploma certifies Doctor of Medicine,";
                     "Board Certified Surgeon"])).

Definition cat_photo : DocumentHandler.env :=
  diploma_services (Returns (lines ["Photo of a cat sitting on a chair"])).

Definition textract_down : DocumentHandler.env :=
  diploma_services (Fails "AccessDeniedException").

Definition identity_services (faces : call_result (list Q))
           (update : call_result unit) : IdentityHandler.env :=
  {| IdentityHandler.put_id_card := Returns tt;
     IdentityHandler.tag_id_card := Returns tt;
     IdentityHandler.faces_compared := faces;
     IdentityHandler.put_selfie := Returns tt;
     IdentityHandler.presigned_url := Returns "https://signed.example/selfie";
     IdentityHandler.profile_update := update |}.

(** A patient's first submission, ID card and selfie together. *)
Definition patient_request : pydict :=
  [("userId", PStr "p1"); ("role", PStr "patient");
   ("selfieImage", PStr "abcd"); ("idImage", PStr "abcd")].

(** Doctor [d1] submits a selfie against the ID card on file. *)
Definition doctor_request : pydict :=
  [("userId", PStr "d1"); ("role", PStr "provider");
   ("selfieImage", PStr "abcd")].

Definition post (fields : pydict) : IdentityHandler.event :=
  {| IdentityHandler.httpMethod := PStr "POST";
     IdentityHandler.event_body_of :=
       IdentityHandler.BodyStr (Returns (IdentityHandler.JDict fields)) |}.

End Scenario.

(* ===================================================================== *)
(** * The claims of the design document, as it words them *)
(* ===================================================================== *)

Module Stated.
Import PyVal Runtime DiplomaScanner Observe.

(** An outcome that carries [reason]: as the message of the scan result,
    or as a field of the response. *)
Definition carries_reason (reason : string) (scan : scan_result)
           (r : response) : Prop :=
  scan = ScanError reason \/ exists k, field r k = Some (JStr reason).

Definition no_record_update (issued_calls : list logged) : Prop :=
  forall entry, In entry issued_calls ->
                is_record_update (issued entry) = false.

(** Extraction failure: an automatic fail with the reason
    EXTRACTION_FAILED, and no record update issued. *)
Definition extraction_failure_claim (e : DocumentHandler.env)
           (bucket key : string) (w : world) : Prop :=
  returns (DocumentHandler.textract_detect e) = false ->
  exists scan w1 r,
    DocumentHandler.scan_diploma (R := response)
      (DocumentHandler.textract_detect e) bucket key w = (Normal scan, w1) /\
    (invoke (DocumentHandler.lambda_handler e (Some (bucket, key))) w).1
    = Some r /\
    result_passed scan = false /\
    carries_reason "EXTRACTION_FAILED" scan r /\
    no_record_update
      (issued_by (DocumentHandler.lambda_handler e (Some (bucket, key))) w).

(** Missing fields: a request without [userId], [selfieImage] or [role],
    or with a selfie that does not decode, is answered 400 and leaves the
    world, call log included, as it was. *)
Definition missing_field_claim (e : IdentityHandler.env)
           (ev : IdentityHandler.event) (d : pydict) (w : world) : Prop :=
  IdentityHandler.loaded ev = Returns (IdentityHandler.JDict d) ->
  has_key d "userId" = false \/ has_key d "selfieImage" = false \/
  has_key d "role" = false \/
  Base64.b64decode (get d "selfieImage") = None ->
  exists r,
    invoke (IdentityHandler.lambda_handler e ev) w = (Some r, w) /\
    statusCode r = 400%Z.

End Stated.

(* ===================================================================== *)
(** * Weakest preconditions *)
(* ===================================================================== *)

Module Wp.
Import Runtime.

(** [Q] holds of the outcome of [m] and of the world it leaves. *)
Definition wp {R A} (m : M R A) (Q : outcome R A -> world -> Prop)
           (w : world) : Prop :=
  Q (m w).1 (m w).2.

End Wp.

#[global] Arguments DiplomaScanner.verify_text : simpl never.
#[global] Arguments DiplomaScanner.full_text_of : simpl never.
#[global] Arguments DocumentHandler.doctor_id_of_key : simpl never.
#[global] Arguments DocumentHandler.diploma_update : simpl never.
#[global] Arguments DocumentHandler.review_message : simpl never.
#[global] Arguments IdentityHandler.identity_update : simpl never.
#[global] Arguments IdentityHandler.id_card_key : simpl never.
#[global] Arguments IdentityHandler.selfie_key : simpl never.
#[global] Arguments IdentityHandler.table_name : simpl never.
#[global] Arguments IdentityHandler.id_key_field : simpl never.
#[global] Arguments IdentityHandler.normalize_role : simpl never.
#[global] Arguments Base64.b64decode : simpl never.
#[global] Arguments PyVal.format_2f : simpl never.
#[global] Arguments PyVal.truthy : simpl never.
#[global] Arguments PyVal.get : simpl never.
#[global] Arguments PyVal.get_default : simpl never.
#[global] Arguments PyVal.has_key : simpl never.
#[global] Arguments IdentityHandler.id_image_supplied : simpl never.
#[global] Arguments String.append : simpl never.

(* ===================================================================== *)
(** * Further vocabulary for the handlers *)
(* ===================================================================== *)

Module More.
Import PyText PyVal Runtime DiplomaScanner.

(** A path segment: a string without the separator. *)
Definition slash_free (s : string) : Prop :=
  ~ In "/"%char (list_ascii_of_string s).

(** What [scan_diploma] returns, read off the outcome of the Textract
    call. *)
Definition scan_outcome (svc : call_result textract_response) : scan_result :=
  match svc with
  | Returns response => verify_text (full_text_of response)
  | Fails message => ScanError message
  end.

(** The same services with another outcome of one call. *)
Definition with_bigquery (r : call_result bool) (e : DocumentHandler.env)
  : DocumentHandler.env :=
  {| DocumentHandler.textract_detect := DocumentHandler.textract_detect e;
     DocumentHandler.bigquery_insert := r;
     DocumentHandler.doctors_update := DocumentHandler.doctors_update e;
     DocumentHandler.sns_publish := DocumentHandler.sns_publish e |}.

Definition with_profile_update (r : call_result unit)
           (e : IdentityHandler.env) : IdentityHandler.env :=
  {| IdentityHandler.put_id_card := IdentityHandler.put_id_card e;
     IdentityHandler.tag_id_card := IdentityHandler.tag_id_card e;
     IdentityHandler.faces_compared := IdentityHandler.faces_compared e;
     IdentityHandler.put_selfie := IdentityHandler.put_selfie e;
     IdentityHandler.presigned_url := IdentityHandler.presigned_url e;
     IdentityHandler.profile_update := r |}.

Definition is_comparison (c : call) : bool :=
  match c with RekognitionCompareFaces _ _ _ _ => true | _ => false end.

Definition is_analytics (c : call) : bool :=
  match c with BigQueryInsertRow _ _ _ => true | _ => false end.

(** The attributes a diploma update and an identity update assign. *)
Definition diploma_attributes : list string :=
  ["isDiplomaAutoVerified"; "diplomaUrl"; "verificationStatus"].

Definition identity_attributes : list string :=
  ["avatar"; "isIdentityVerified"; "verificationStatus"].




(** The characters [a2b_base64] looks at: the alphabet and the pad. *)
Definition significant (c : ascii) : bool :=
  Base64.is_pad c || match Base64.sextet c with Some _ => true | None => false end.

Definition strip (s : string) : string :=
  string_of_list_ascii (List.filter significant (list_ascii_of_string s)).

(** A string over the base64 alphabet, without pad. *)
Definition alphabet_only (s : string) : bool :=
  forallb (fun c => match Base64.sextet c with Some _ => true | None => false end)
          (list_ascii_of_string s).

(** Bytes, as [bytes] holds them. *)
Definition octets (bytes : list Z) : Prop :=
  Forall (fun b => (0 <= b < 256)%Z) bytes.

(** The value the assignments give an attribute: that of its last
    assignment, if it has one. *)
Fixpoint last_assigned (assignments : list (string * pyval)) (attr : string)
  : option pyval :=
  match assignments with
  | [] => None
  | (k, v) :: rest =>
      match last_assigned rest attr with
      | Some x => Some x
      | None => if String.eqb k attr then Some v else None
      end
  end.

End More.

(* ===================================================================== *)
(** * gcp_bigquery.py: the analytics row *)
(* ===================================================================== *)

Module GcpBigQuery.
Import PyVal Runtime.

(** What [json.loads] makes of the secret: an object, or a value of
    another type, of which the code only tests the truth value. *)
Inductive secret_json : Type :=
| SecretObject (d : pydict)
| SecretOther (truth : bool).

(** [bool(creds_dict)] *)
Definition secret_truthy (j : secret_json) : bool :=
  match j with
  | SecretObject [] => false
  | SecretObject (_ :: _) => true
  | SecretOther truth => truth
  end.

(** What the services and libraries do during one call of
    [record_doctor_event]. *)
Record env : Type :=
  { get_secret_value : call_result (option string);
      (* the response's ['SecretString'], if it has one *)
    json_loads : string -> call_result secret_json;
    from_service_account_info : call_result unit;
    new_client : call_result unit;
    utcnow_isoformat : string;
    insert_rows_json : call_result (list string) (* the errors *) }.

(** The row sent to BigQuery. *)
Record row : Type :=
  { doctor_id : string; event_type : string; status : string;
    timestamp : string }.

(** The remote calls, as issued. *)
Inductive remote : Type :=
| GetSecretValue (secret_id : string)
| InsertRowsJson (table_id : string) (rows : list row).

(** [get_gcp_credentials]: the parsed secret, or [None]; with the calls
    issued. *)
Definition get_gcp_credentials (e : env) : option secret_json * list remote :=
  let issued := [GetSecretValue "mediconnect/gcp/bigquery_key"] in
  match get_secret_value e with
  | Fails _ => (None, issued)
  | Returns None => (None, issued)
  | Returns (Some secret_string) =>
      match json_loads e secret_string with
      | Returns j => (Some j, issued)
      | Fails _ => (None, issued)
      end
  end.

(** [creds_dict['project_id']]: [None] when the subscript raises. *)
Definition project_id (j : secret_json) : option pyval :=
  match j with
  | SecretObject d => lookup_key d "project_id"
  | SecretOther _ => None
  end.

(** [record_doctor_event]: its result and the calls issued. *)
Definition record_doctor_event (e : env)
           (doctor event status_ : string) : bool * list remote :=
  let '(creds, issued) := get_gcp_credentials e in
  match creds with
  | None => (false, issued)
  | Some creds_dict =>
      if negb (secret_truthy creds_dict) then (false, issued)
      else
        match from_service_account_info e, project_id creds_dict,
              new_client e with
        | Returns _, Some project, Returns _ =>
            let table_id :=
              py_str project +:+ ".mediconnect_analytics.doctor_onboarding_logs" in
            let rows_to_insert :=
              [{| doctor_id := doctor; event_type := event;
                  status := status_;
                  timestamp := utcnow_isoformat e |}] in
            let issued' := issued ++ [InsertRowsJson table_id rows_to_insert] in
            match insert_rows_json e with
            | Returns [] => (true, issued')
            | Returns (_ :: _) => (false, issued')
            | Fails _ => (false, issued')
            end
        | _, _, _ => (false, issued)
        end
  end.

End GcpBigQuery.

(* ===================================================================== *)
(** * More concrete runs *)
(* ===================================================================== *)

Module MoreScenario.
Import PyVal Runtime DiplomaScanner Scenario.

(** A genuine diploma while the alert topic is unreachable. *)
Definition alert_topic_down : DocumentHandler.env :=
  {| DocumentHandler.textract_detect :=
       Returns (lines ["Doctor of Medicine"]);
     DocumentHandler.bigquery_insert := Returns true;
     DocumentHandler.doctors_update := Returns tt;
     DocumentHandler.sns_publish := Fails "NotFound" |}.

(** The identity services, each with its own outcome. *)
Definition identity_env (put_id tag_id : call_result unit)
           (faces : call_result (list Q)) (put_sel : call_result unit)
           (url : call_result string) (update : call_result unit)
  : IdentityHandler.env :=
  {| IdentityHandler.put_id_card := put_id;
     IdentityHandler.tag_id_card := tag_id;
     IdentityHandler.faces_compared := faces;
     IdentityHandler.put_selfie := put_sel;
     IdentityHandler.presigned_url := url;
     IdentityHandler.profile_update := update |}.

(** Doctor [d1] submits ID card and selfie together. *)
Definition doctor_first_request : pydict :=
  [("userId", PStr "d1"); ("role", PStr "doctor");
   ("selfieImage", PStr "abcd"); ("idImage", PStr "abcd")].

(** A body that is a JSON array. *)
Definition array_body : IdentityHandler.event :=
  {| IdentityHandler.httpMethod := PStr "POST";
     IdentityHandler.event_body_of :=
       IdentityHandler.BodyStr (Returns (IdentityHandler.JNotDict "list")) |}.

(** The analytics services, all working. *)
Definition analytics_up : GcpBigQuery.env :=
  {| GcpBigQuery.get_secret_value := Returns (Some "{...}");
     GcpBigQuery.json_loads := fun _ =>
       Returns (GcpBigQuery.SecretObject
                  [("type", PStr "service_account");
                   ("project_id", PStr "mediconnect-analytics")]);
     GcpBigQuery.from_service_account_info := Returns tt;
     GcpBigQuery.new_client := Returns tt;
     GcpBigQuery.utcnow_isoformat := "2024-01-01T00:00:00";
     GcpBigQuery.insert_rows_json := Returns [] |}.

End MoreScenario.

(* ===================================================================== *)
(** * Properties *)
(* ===================================================================== *)

(* ===================================================================== *)
(** * The keyword check finds whole words *)
(* ===================================================================== *)

Module WholeWordFacts.
Import PyText Re DiplomaScanner WholeWord.

(** ** Characters *)

Lemma lower_keeps_word (a : ascii) : is_word (lower a) = is_word a.
Proof. destruct a as [[] [] [] [] [] [] [] []]; reflexivity. Qed.

Lemma ord_inj (a b : ascii) : ord a = ord b -> a = b.
Proof.
  unfold ord. intros H.
  rewrite <- (ascii_N_embedding a), <- (ascii_N_embedding b).
  now rewrite H.
Qed.

Lemma ci_char_eq_spec (p x : ascii) :
  ci_char_eq p x = true <-> lower p = lower x.
Proof.
  unfold ci_char_eq. rewrite N.eqb_eq. split.
  - apply ord_inj.
  - now intros ->.
Qed.

Lemma same_case_same_word (p x : ascii) :
  lower p = lower x -> is_word x = is_word p.
Proof.
  intros H. rewrite <- (lower_keeps_word x), <- (lower_keeps_word p).
  now rewrite H.
Qed.

(** ** The matcher *)

Lemma prev_after_snoc prev mid c :
  prev_after prev (mid ++ [c]) = Some c.
Proof. unfold prev_after. now rewrite fold_left_app. Qed.

Lemma no_word_char_at_end_spec (pre : list ascii) :
  no_word_char_at_end pre <-> word_before (prev_after None pre) = false.
Proof.
  unfold no_word_char_at_end.
  destruct pre as [|c0 pre0] using rev_ind.
  - split; [reflexivity|]. intros _ pre' c H. now destruct pre'.
  - rewrite prev_after_snoc. cbn. split.
    + intros H. now apply (H pre0).
    + intros H pre' c E. apply app_inj_tail in E as [_ <-]. exact H.
Qed.

Lemma no_word_char_at_start_spec (post : list ascii) :
  no_word_char_at_start post <-> word_after post = false.
Proof.
  unfold no_word_char_at_start. destruct post as [|c post]; cbn.
  - split; [reflexivity|]. intros _ c post' H. discriminate.
  - split.
    + intros H. now apply (H c post).
    + intros H c' post' E. now injection E as <- _.
Qed.

(** Literals consume a case-insensitive copy of themselves. *)
Lemma match_here_literals (k : list ascii) (p : list item) prev rest :
  match_here (map Literal k ++ p) prev rest = true <->
  exists mid post,
    rest = mid ++ post /\ same_ignoring_case k mid /\
    match_here p (prev_after prev mid) post = true.
Proof.
  revert prev rest. induction k as [|c k IH]; intros prev rest; cbn.
  - split.
    + intros H. exists [], rest. repeat split; [constructor | exact H].
    + intros (mid & post & -> & Hci & H). inversion Hci; subst. exact H.
  - destruct rest as [|x rest].
    + split; [discriminate|].
      intros (mid & post & E & Hci & _). inversion Hci; subst.
      discriminate.
    + rewrite andb_true_iff, ci_char_eq_spec, IH. split.
      * intros (Hc & mid & post & -> & Hci & H).
        exists (x :: mid), post. repeat split; [now constructor | exact H].
      * intros (mid & post & E & Hci & H). inversion Hci; subst.
        injection E as <- ->. split; [assumption|]. now eexists _, _.
Qed.

(** [search_from] succeeds when the pattern matches at some position. *)
Lemma search_from_spec (p : list item) prev rest :
  search_from p prev rest = true <->
  exists pre suf,
    rest = pre ++ suf /\ match_here p (prev_after prev pre) suf = true.
Proof.
  revert prev. induction rest as [|x rest IH]; intros prev; cbn.
  - rewrite orb_false_r. split.
    + intros H. now exists [], [].
    + intros (pre & suf & E & H).
      symmetry in E. apply app_eq_nil in E as [-> ->]. exact H.
  - rewrite orb_true_iff, IH. split.
    + intros [H | (pre & suf & -> & H)].
      * now exists [], (x :: rest).
      * now exists (x :: pre), suf.
    + intros (pre & suf & E & H). destruct pre as [|y pre]; cbn in *.
      * left. now subst.
      * right. injection E as <- ->. now exists pre, suf.
Qed.

Lemma same_ignoring_case_last (k mid : list ascii) c x c0 d :
  lower c = lower x -> same_ignoring_case k mid ->
  word_before (prev_after c0 (x :: mid)) = is_word (List.last (c :: k) d).
Proof.
  intros Hc H. revert c x c0 Hc.
  induction H as [|c' x' k' mid' Hc' _ IH]; intros c x c0 Hc.
  - cbn. now apply same_case_same_word.
  - exact (IH c' x' (Some x) Hc').
Qed.

Lemma same_ignoring_case_word_ends (k mid : list ascii) c0 :
  same_ignoring_case k mid ->
  match k with
  | [] => mid = []
  | c :: _ =>
      exists x mid', mid = x :: mid' /\ is_word x = is_word c /\
      word_before (prev_after c0 mid) = is_word (List.last k c)
  end.
Proof.
  intros H. destruct H as [|c x k' mid' Hc Hrest]; [reflexivity|].
  exists x, mid'. repeat split; [now apply same_case_same_word|].
  now apply same_ignoring_case_last.
Qed.

(** For such a keyword the two [\b] say: no word character on either
    side of the occurrence. *)
Lemma search_keyword_spec (keyword text : string) :
  word_delimited keyword = true ->
  Re.search (keyword_pattern keyword) text = true <->
  occurs_as_whole_word keyword text.
Proof.
  unfold word_delimited, Re.search, keyword_pattern, occurs_as_whole_word,
    escape.
  set (k := list_ascii_of_string keyword).
  set (t := list_ascii_of_string text).
  intros Hk. destruct k as [|c k'] eqn:Ek; [discriminate|].
  apply andb_true_iff in Hk as [Hfirst Hlast].
  rewrite search_from_spec. split.
  - intros (pre & suf & Et & H). cbn [app match_here] in H.
    apply andb_true_iff in H as [Hb1 H].
    change (Literal c :: map Literal k' ++ [WordBoundary])
      with (map Literal (c :: k') ++ [WordBoundary]) in H.
    apply match_here_literals in H as (mid & post & -> & Hci & H).
    cbn [match_here] in H. rewrite andb_true_r in H.
    exists pre, mid, post. repeat split; [exact Et | exact Hci | |].
    + apply no_word_char_at_end_spec.
      destruct (same_ignoring_case_word_ends _ _ (prev_after None pre) Hci)
        as (x & mid' & -> & Hx & _).
      unfold at_boundary in Hb1. cbn [app word_after] in Hb1.
      rewrite Hx, Hfirst in Hb1.
      now destruct (word_before (prev_after None pre)).
    + apply no_word_char_at_start_spec.
      destruct (same_ignoring_case_word_ends _ _ (prev_after None pre) Hci)
        as (x & mid' & _ & _ & Hl).
      unfold at_boundary in H. rewrite Hl, Hlast in H.
      now destruct (word_after post).
  - intros (pre & mid & post & Et & Hci & Hpre & Hpost).
    exists pre, (mid ++ post). split; [exact Et|].
    cbn [app match_here].
    change (Literal c :: map Literal k' ++ [WordBoundary])
      with (map Literal (c :: k') ++ [WordBoundary]).
    apply no_word_char_at_end_spec in Hpre.
    apply no_word_char_at_start_spec in Hpost.
    destruct (same_ignoring_case_word_ends _ _ (prev_after None pre) Hci)
      as (x & mid' & Emid & Hx & Hl).
    apply andb_true_iff. split.
    + unfold at_boundary. rewrite Hpre, Emid. cbn. now rewrite Hx, Hfirst.
    + apply match_here_literals. exists mid, post.
      repeat split; [exact Hci|]. cbn [match_here].
      unfold at_boundary. now rewrite Hl, Hlast, Hpost.
Qed.

(** ** The loop over the keywords *)







(** The document's example: "MD" inside a longer token is no match. *)
Example md_inside_token_rejected :
  ~ occurs_as_whole_word "MD" "ABCMDXYZ" /\
  verify_text "ABCMDXYZ" = ScanSuccess false [] "ABCMDXYZ".
Proof.
  split; [|reflexivity].
  intros H. apply (search_keyword_spec "MD" "ABCMDXYZ") in H;
    [discriminate | reflexivity].
Qed.

End WholeWordFacts.

(* ===================================================================== *)
(** * Rules for symbolic execution *)
(* ===================================================================== *)

Module WpRules.
Import PyVal Runtime Wp.

Section Rules.
Context {R A B : Type}.

Lemma wp_ret (a : A) (Q : outcome R A -> world -> Prop) w :
  Q (Normal a) w -> wp (ret a) Q w.
Proof. exact id. Qed.

Lemma wp_raise (e : exn) (Q : outcome R A -> world -> Prop) w :
  Q (Raise e) w -> wp (raise e) Q w.
Proof. exact id. Qed.

Lemma wp_return (r : R) (Q : outcome R A -> world -> Prop) w :
  Q (Return r) w -> wp (return_ r) Q w.
Proof. exact id. Qed.

Lemma wp_bind (m : M R A) (k : A -> M R B)
      (Q : outcome R B -> world -> Prop) w :
  wp m (fun o w' => match o with
                    | Normal a => wp (k a) Q w'
                    | Raise e => Q (Raise e) w'
                    | Return r => Q (Return r) w'
                    end) w ->
  wp (bind m k) Q w.
Proof.
  unfold wp, bind. destruct (m w) as [[a|e|r] w']; exact id.
Qed.

Lemma wp_try_except (m : M R A) (h : exn -> M R A)
      (Q : outcome R A -> world -> Prop) w :
  wp m (fun o w' => match o with
                    | Raise e => wp (h e) Q w'
                    | _ => Q o w'
                    end) w ->
  wp (try_except m h) Q w.
Proof.
  unfold wp, try_except. destruct (m w) as [[a|e|r] w']; exact id.
Qed.

Lemma wp_service_call (c : call) (r : call_result A)
      (Q : outcome R A -> world -> Prop) w :
  match r with
  | Returns a => Q (Normal a) (log c true w)
  | Fails msg => Q (Raise (Exception msg)) (log c false w)
  end ->
  wp (service_call c r) Q w.
Proof. unfold wp, service_call. destruct r; exact id. Qed.

(** A piece of code whose run from [w] is known. *)
Lemma wp_known (m : M R A) (o : outcome R A) (w1 : world)
      (Q : outcome R A -> world -> Prop) w :
  m w = (o, w1) -> Q o w1 -> wp m Q w.
Proof. unfold wp. now intros ->. Qed.

End Rules.

Lemma wp_update_item {R} fault table_name key_field key assignments
      (Q : outcome R unit -> world -> Prop) w :
  match fault with
  | Returns _ =>
      Q (Normal tt)
        (log (DynamoUpdateItem table_name key_field key assignments) true
           (set_tables
              (<[(table_name, key) :=
                   apply_assignments assignments
                     (default {[ key_field := key ]}
                              (tables w !! (table_name, key)))]> (tables w))
              w))
  | Fails msg =>
      Q (Raise (Exception msg))
        (log (DynamoUpdateItem table_name key_field key assignments) false w)
  end ->
  wp (update_item fault table_name key_field key assignments) Q w.
Proof. unfold wp, update_item. destruct fault; exact id. Qed.

Lemma wp_put_object {R} fault bucket key body content_type
      (Q : outcome R unit -> world -> Prop) w :
  match fault with
  | Returns _ =>
      Q (Normal tt)
        (log (S3PutObject bucket key body content_type) true
           (set_objects
              (<[(bucket, key) :=
                   {| Body := body; ContentType := content_type;
                      TagSet := [] |}]> (objects w)) w))
  | Fails msg =>
      Q (Raise (Exception msg))
        (log (S3PutObject bucket key body content_type) false w)
  end ->
  wp (put_object fault bucket key body content_type) Q w.
Proof. unfold wp, put_object. destruct fault; exact id. Qed.

Lemma wp_put_object_tagging {R} fault bucket key tag_set
      (Q : outcome R unit -> world -> Prop) w :
  match fault, objects w !! (bucket, key) with
  | Returns _, Some o =>
      Q (Normal tt)
        (log (S3PutObjectTagging bucket key tag_set) true
           (set_objects
              (<[(bucket, key) :=
                   {| Body := Body o; ContentType := ContentType o;
                      TagSet := tag_set |}]> (objects w)) w))
  | Returns _, None =>
      Q (Raise (Exception "NoSuchKey"))
        (log (S3PutObjectTagging bucket key tag_set) false w)
  | Fails msg, _ =>
      Q (Raise (Exception msg))
        (log (S3PutObjectTagging bucket key tag_set) false w)
  end ->
  wp (put_object_tagging fault bucket key tag_set) Q w.
Proof.
  unfold wp, put_object_tagging.
  destruct fault, (objects w !! (bucket, key)); exact id.
Qed.

Lemma wp_compare_faces {R} faces bucket name target threshold
      (Q : outcome R (list face_match) -> world -> Prop) w :
  match objects w !! (bucket, name) with
  | None =>
      Q (Raise (InvalidS3ObjectException
                  "Unable to get object metadata from S3."))
        (log (RekognitionCompareFaces bucket name target threshold) false w)
  | Some _ =>
      match faces with
      | Fails msg =>
          Q (Raise (Exception msg))
            (log (RekognitionCompareFaces bucket name target threshold)
                 false w)
      | Returns sims =>
          Q (Normal (map Build_face_match
                         (List.filter (fun s => Qle_bool threshold s) sims)))
            (log (RekognitionCompareFaces bucket name target threshold)
                 true w)
      end
  end ->
  wp (compare_faces faces bucket name target threshold) Q w.
Proof.
  unfold wp, compare_faces.
  destruct (objects w !! (bucket, name)); [destruct faces|]; exact id.
Qed.

(** From the handler as a computation to the handler as invoked. *)
Lemma wp_invoke {R} (m : M R R) (Q : option R * world -> Prop) w :
  wp m (fun o w' => Q (match o with
                       | Normal r | Return r => Some r
                       | Raise _ => None
                       end, w')) w ->
  Q (invoke m w).
Proof.
  unfold wp, invoke. destruct (m w) as [[a|e|r] w']; exact id.
Qed.

(** One step of symbolic execution: a rule for the construct at the head
    of the code, or a case split on what it branches on. *)
Ltac wp_step :=
  lazymatch goal with
  | |- wp (bind _ _) _ _ => apply wp_bind
  | |- wp (try_except _ _) _ _ => apply wp_try_except
  | |- wp (ret _) _ _ => apply wp_ret
  | |- wp (raise _) _ _ => apply wp_raise
  | |- wp (return_ _) _ _ => apply wp_return
  | |- wp (service_call _ _) _ _ => apply wp_service_call
  | |- wp (update_item _ _ _ _ _) _ _ => apply wp_update_item
  | |- wp (put_object _ _ _ _ _) _ _ => apply wp_put_object
  | |- wp (put_object_tagging _ _ _ _) _ _ => apply wp_put_object_tagging
  | |- wp (compare_faces _ _ _ _ _) _ _ => apply wp_compare_faces
  | |- wp (generate_presigned_url _ _ _ _) _ _ =>
      unfold generate_presigned_url
  | |- wp (if ?c then _ else _) _ _ => destruct c eqn:?
  | |- wp (match ?x with _ => _ end) _ _ => destruct x eqn:?
  | |- match ?x with _ => _ end => destruct x eqn:?
  end; cbn beta iota.

(** A lookup that comes right after the insertion of its key. *)
Ltac lookup_after_insert :=
  match goal with
  | H : _ !! _ = _ |- _ =>
      cbn in H; rewrite lookup_insert_eq in H;
      first [discriminate H | injection H as <-]
  end.

End WpRules.

(* ===================================================================== *)
(** * The diploma handler *)
(* ===================================================================== *)

Module DocumentFacts.
Import PyText PyVal Runtime DiplomaScanner DocumentHandler.
Import Observe Stated Scenario.

(** Every path of the handler on a well-formed event. *)
Ltac document_paths e :=
  destruct e as [tx bq upd sns];
  unfold issued_by, invoke, lambda_handler, scan_diploma,
    record_doctor_event;
  destruct tx as [resp|?]; cbn;
  destruct bq; cbn;
  try (destruct (result_passed (verify_text (full_text_of resp))) eqn:Hp;
       cbn);
  destruct upd as [[]|?]; cbn;
  try (destruct sns as [[]|?]; cbn);
  rewrite <- ?app_assoc, ?drop_app_length; cbn.

(** The handler never lets an exception escape. *)
Lemma lambda_handler_answers (e : env) (ev : event) (w : world) :
  exists r, (invoke (lambda_handler e ev) w).1 = Some r.
Proof.
  destruct ev as [[bucket key]|].
  - document_paths e; eexists; reflexivity.
  - eexists; reflexivity.
Qed.

(** C9. A reviewer notification in the log of a run means: the scan
    passed, the record update of the pass branch was issued before it and
    returned, and nothing else was issued in between. So nothing is
    published on the fail branch, nor when the update of the pass branch
    raises. *)
Theorem notification_follows_pass_update
        (e : env) (ev : event) (w : world) (entry : logged) :
  In entry (issued_by (lambda_handler e ev) w) ->
  is_notification (issued entry) = true ->
  exists bucket key r tx bq,
    ev = Some (bucket, key) /\
    (invoke (lambda_handler e ev) w).1 = Some r /\
    field r "scan_passed" = Some (JBool true) /\
    doctors_update e = Returns tt /\
    issued_by (lambda_handler e ev) w =
    [ {| issued := TextractDetectDocumentText bucket key; returned := tx |};
      {| issued := BigQueryInsertRow (doctor_id_of_key key)
                     "diploma_verification" "passed";
         returned := bq |};
      {| issued := DynamoUpdateItem TABLE_NAME "doctorId"
                     (PStr (doctor_id_of_key key))
                     (diploma_update true bucket key);
         returned := true |};
      entry ].
Proof.
  destruct ev as [[bucket key]|].
  - document_paths e.
    all: intros Hin Hn.
    all: repeat (destruct Hin as [<- | Hin]; try discriminate Hn).
    all: try contradiction.
    all: eexists _, _, _, _, _; repeat split.
  - unfold issued_by, invoke, lambda_handler. cbn.
    rewrite drop_all. intros [].
Qed.

Lemma notification_follows_pass_update_witness :
  exists bucket key r tx bq,
    diploma_upload = Some (bucket, key) /\
    (invoke (lambda_handler genuine_diploma diploma_upload) empty_world).1
    = Some r /\
    field r "scan_passed" = Some (JBool true) /\
    doctors_update genuine_diploma = Returns tt /\
    issued_by (lambda_handler genuine_diploma diploma_upload) empty_world =
    [ {| issued := TextractDetectDocumentText bucket key; returned := tx |};
      {| issued := BigQueryInsertRow (doctor_id_of_key key)
                     "diploma_verification" "passed";
         returned := bq |};
      {| issued := DynamoUpdateItem TABLE_NAME "doctorId"
                     (PStr (doctor_id_of_key key))
                     (diploma_update true bucket key);
         returned := true |};
      {| issued := SnsPublish SNS_TOPIC_ARN (review_message "d1")
                     "New Doctor Credential Review";
         returned := true |} ].
Proof.
  apply (notification_follows_pass_update genuine_diploma diploma_upload
           empty_world
           {| issued := SnsPublish SNS_TOPIC_ARN (review_message "d1")
                          "New Doctor Credential Review";
              returned := true |}).
  - vm_compute. tauto.
  - reflexivity.
Defined.

(** C2, as amended. When text extraction fails, [scan_diploma] returns the
    error dictionary with the extractor's own message and
    [verification_passed = False]; the handler answers 200 with
    [scan_passed = false] and, after the analytics call, issues the
    REJECTED_AUTO record update and nothing else. *)
Theorem extraction_failure_is_auto_reject
        (e : env) (bucket key msg : string) (w : world) :
  textract_detect e = Fails msg ->
  exists w1 r bq,
    scan_diploma (R := response) (textract_detect e) bucket key w
    = (Normal (ScanError msg), w1) /\
    (invoke (lambda_handler e (Some (bucket, key))) w).1 = Some r /\
    statusCode r = 200%Z /\
    field r "scan_passed" = Some (JBool false) /\
    issued_by (lambda_handler e (Some (bucket, key))) w =
    [ {| issued := TextractDetectDocumentText bucket key; returned := false |};
      {| issued := BigQueryInsertRow (doctor_id_of_key key)
                     "diploma_verification" "failed";
         returned := bq |};
      {| issued := DynamoUpdateItem TABLE_NAME "doctorId"
                     (PStr (doctor_id_of_key key))
                     (diploma_update false bucket key);
         returned := returns (doctors_update e) |} ].
Proof.
  intros Htx. destruct e as [tx bq upd sns]. cbn in Htx. subst tx.
  unfold issued_by, invoke, lambda_handler, scan_diploma, record_doctor_event.
  cbn. destruct bq; cbn; destruct upd as [[]|?]; cbn;
    rewrite <- ?app_assoc, ?drop_app_length; cbn;
    eexists _, _, _; repeat split.
Qed.

Lemma extraction_failure_is_auto_reject_witness :
  exists w1 r bq,
    scan_diploma (R := response) (textract_detect textract_down)
      "mediconnect-doctor-data" "uploads/doctors/d1/diploma.png" empty_world
    = (Normal (ScanError "AccessDeniedException"), w1) /\
    (invoke (lambda_handler textract_down diploma_upload) empty_world).1
    = Some r /\
    statusCode r = 200%Z /\
    field r "scan_passed" = Some (JBool false) /\
    issued_by (lambda_handler textract_down diploma_upload) empty_world =
    [ {| issued := TextractDetectDocumentText "mediconnect-doctor-data"
                     "uploads/doctors/d1/diploma.png";
         returned := false |};
      {| issued := BigQueryInsertRow
                     (doctor_id_of_key "uploads/doctors/d1/diploma.png")
                     "diploma_verification" "failed";
         returned := bq |};
      {| issued := DynamoUpdateItem TABLE_NAME "doctorId"
                     (PStr (doctor_id_of_key "uploads/doctors/d1/diploma.png"))
                     (diploma_update false "mediconnect-doctor-data"
                        "uploads/doctors/d1/diploma.png");
         returned := returns (doctors_update textract_down) |} ].
Proof.
  apply (extraction_failure_is_auto_reject textract_down
           "mediconnect-doctor-data" "uploads/doctors/d1/diploma.png"
           "AccessDeniedException" empty_world).
  reflexivity.
Defined.

(** C2 as the document words it fails when Textract denies access: the
    only reason around is Textract's message, no field of the response
    names a reason, and the REJECTED_AUTO update is issued all the same. *)
Lemma extraction_failure_claim_fails :
  ~ extraction_failure_claim textract_down "mediconnect-doctor-data"
      "uploads/doctors/d1/diploma.png" empty_world
  /\ (scan_diploma (R := response) (textract_detect textract_down)
        "mediconnect-doctor-data" "uploads/doctors/d1/diploma.png"
        empty_world).1
     = Normal (ScanError "AccessDeniedException")
  /\ (invoke (lambda_handler textract_down diploma_upload) empty_world).1
     = Some {| statusCode := 200; headers := [];
               body := DumpsObj
                 [("message", JStr "Processed");
                  ("doctor_id", JStr "d1");
                  ("scan_passed", JBool false);
                  ("db_status", JStr "DynamoDB Updated (Auto-Rejected)")] |}
  /\ status_of
       (invoke (lambda_handler textract_down diploma_upload) empty_world).2
       "mediconnect-doctors" (PStr "d1")
     = Some (PStr "REJECTED_AUTO").
Proof.
  split; [|repeat split; reflexivity].
  intros H.
  destruct (H eq_refl) as (scan & w1 & r & _ & _ & _ & _ & Hno).
  specialize (Hno
    {| issued := DynamoUpdateItem TABLE_NAME "doctorId" (PStr "d1")
                   (diploma_update false "mediconnect-doctor-data"
                      "uploads/doctors/d1/diploma.png");
       returned := true |}).
  discriminate Hno. vm_compute. tauto.
Qed.

(** X1. When the record update raises, the decision is still returned, in
    a 200 response, [db_status] reports the failure, and the record store
    is untouched. *)
Lemma update_failure_is_surfaced
      (e : env) (bucket key msg : string) (w : world) :
  doctors_update e = Fails msg ->
  exists r passed,
    (invoke (lambda_handler e (Some (bucket, key))) w).1 = Some r /\
    statusCode r = 200%Z /\
    field r "scan_passed" = Some (JBool passed) /\
    (forall w1 scan,
        scan_diploma (R := response) (textract_detect e) bucket key w
        = (Normal scan, w1) -> result_passed scan = passed) /\
    field r "db_status" = Some (JStr ("DynamoDB Update Failed: " +:+ msg)) /\
    tables (invoke (lambda_handler e (Some (bucket, key))) w).2 = tables w.
Proof.
  intros Hupd. destruct e as [tx bq upd sns]. cbn in Hupd. subst upd.
  unfold invoke, lambda_handler, scan_diploma, record_doctor_event.
  destruct tx as [resp|?]; cbn; destruct bq; cbn;
    try (destruct (result_passed (verify_text (full_text_of resp))) eqn:Hp;
         cbn);
    eexists _, _; repeat split; try reflexivity;
    intros w1 scan [= <- _]; cbn; congruence.
Qed.



End DocumentFacts.

(* ===================================================================== *)
(** * The identity handler *)
(* ===================================================================== *)

Module IdentityFacts.
Import PyText PyVal Base64 Runtime IdentityHandler.
Import Observe Stated Scenario Wp WpRules.

Ltac identity_paths :=
  repeat first
    [ wp_step
    | progress unfold parse_body, decode, save_id_card, run_rekognition,
        update_database ].

(** Paths that the hypotheses exclude. *)
Ltac unfeasible :=
  repeat match goal with
         | H : negb _ = true |- _ => apply negb_true_iff in H
         | H : negb _ = false |- _ => apply negb_false_iff in H
         | H : bool_decide _ = true |- _ => apply bool_decide_eq_true in H
         | H : _ && _ = true |- _ => apply andb_true_iff in H as [? ?]
         end;
  first [ congruence
        | match goal with
          | H : <[ _ := _ ]> _ !! _ = None |- _ =>
              rewrite lookup_insert_eq in H; discriminate H
          | H : objects _ !! _ = None |- _ =>
              cbn in H; rewrite lookup_insert_eq in H; discriminate H
          end ].

(** C7, as amended. A request whose [userId] is missing or empty, whose
    [selfieImage] is missing, or whose selfie makes [base64.b64decode]
    raise, is answered 400 and the world is left as it was: no call to the
    image store, the comparison service or the record store is issued. *)
Theorem malformed_request_rejected
        (e : env) (ev : event) (d : pydict) (w : world) :
  httpMethod ev <> PStr "OPTIONS" ->
  loaded ev = Returns (JDict d) ->
  truthy (get d "userId") = false \/ has_key d "selfieImage" = false \/
  b64decode (get d "selfieImage") = None ->
  exists r,
    invoke (lambda_handler e ev) w = (Some r, w) /\ statusCode r = 400%Z.
Proof.
  intros Hm Hd Hbad.
  apply (wp_invoke _ (fun rw => exists r, rw = (Some r, w) /\ statusCode r = 400%Z)).
  unfold lambda_handler, parse_body. rewrite Hd.
  destruct Hbad as [Hbad | [Hbad | Hbad]];
    identity_paths; try unfeasible; eexists; split; reflexivity.
Qed.


(** C6. An accepted request that supplies no ID image, while the image
    store holds none under the subject's ID-card key, is answered 404 with
    a message of its own; the comparison call is the only call issued, it
    raised, and neither store has changed. *)
Theorem missing_reference_is_not_found
        (e : env) (ev : event) (d : pydict) (selfie_bytes : list Z)
        (w : world) :
  accepted ev d selfie_bytes ->
  id_image_supplied d = false ->
  objects w !! (BUCKET_NAME, reference_key d) = None ->
  exists r w',
    invoke (lambda_handler e ev) w = (Some r, w') /\
    statusCode r = 404%Z /\
    body r = DumpsStr "ID Document missing. Please ensure ID is uploaded." /\
    tables w' = tables w /\
    objects w' = objects w /\
    issued_by (lambda_handler e ev) w =
    [ {| issued := RekognitionCompareFaces BUCKET_NAME (reference_key d)
                     selfie_bytes 80;
         returned := false |} ].
Proof.
  intros (Hm & Hd & Hu & Hs & Hb) Hid Href.
  unfold issued_by.
  apply (wp_invoke _ (fun rw => exists r w', rw = (Some r, w') /\ _ /\ _ /\ _ /\ _ /\ drop _ (calls rw.2) = _)).
  unfold lambda_handler, parse_body, reference_key, role_of in *. rewrite Hd.
  identity_paths; try unfeasible. simplify_eq.
  eexists _, _. repeat split. cbn. now rewrite drop_app_length.
Qed.

Lemma malformed_request_rejected_witness :
  exists r,
    invoke (lambda_handler (identity_services (Returns []) (Returns tt))
              (post [("role", PStr "patient"); ("selfieImage", PStr "abcd")]))
           empty_world
    = (Some r, empty_world) /\ statusCode r = 400%Z.
Proof.
  apply (malformed_request_rejected
           (identity_services (Returns []) (Returns tt))
           (post [("role", PStr "patient"); ("selfieImage", PStr "abcd")])
           [("role", PStr "patient"); ("selfieImage", PStr "abcd")]
           empty_world).
  - discriminate.
  - reflexivity.
  - left. reflexivity.
Defined.

(** C7 as the document words it fails for a request that lacks only
    [role]: it is verified as a patient's. *)
Lemma missing_field_claim_fails :
  ~ missing_field_claim
      (identity_services (Returns [92.5%Q]) (Returns tt))
      (post [("userId", PStr "p1"); ("selfieImage", PStr "abcd");
             ("idImage", PStr "abcd")])
      [("userId", PStr "p1"); ("selfieImage", PStr "abcd");
       ("idImage", PStr "abcd")]
      empty_world
  /\ (invoke (lambda_handler
                (identity_services (Returns [92.5%Q]) (Returns tt))
                (post [("userId", PStr "p1"); ("selfieImage", PStr "abcd");
                       ("idImage", PStr "abcd")]))
             empty_world).1
     = Some (respond 200
               (DumpsObj
                  [("verified", JBool true);
                   ("confidence", JNum 92.5);
                   ("message", JStr "Identity Verified. Confidence: 92.50%");
                   ("photoUrl", JStr "https://signed.example/selfie")]))
  /\ status_of
       (invoke (lambda_handler
                  (identity_services (Returns [92.5%Q]) (Returns tt))
                  (post [("userId", PStr "p1"); ("selfieImage", PStr "abcd");
                         ("idImage", PStr "abcd")]))
               empty_world).2
       "mediconnect-patients" (PStr "p1")
     = Some (PStr "VERIFIED").
Proof.
  split; [|split; reflexivity].
  intros H.
  destruct (H eq_refl (or_intror (or_intror (or_introl eq_refl))))
    as (r & Hrun & Hcode).
  apply (f_equal fst) in Hrun. vm_compute in Hrun.
  injection Hrun as <-. discriminate Hcode.
Qed.

Lemma missing_reference_is_not_found_witness :
  exists r w',
    invoke (lambda_handler (identity_services (Returns [92.5%Q]) (Returns tt))
              (post [("userId", PStr "p1"); ("role", PStr "patient");
                     ("selfieImage", PStr "abcd")]))
           empty_world
    = (Some r, w') /\
    statusCode r = 404%Z /\
    body r = DumpsStr "ID Document missing. Please ensure ID is uploaded." /\
    tables w' = tables empty_world /\
    objects w' = objects empty_world /\
    issued_by (lambda_handler
                 (identity_services (Returns [92.5%Q]) (Returns tt))
                 (post [("userId", PStr "p1"); ("role", PStr "patient");
                        ("selfieImage", PStr "abcd")]))
              empty_world =
    [ {| issued := RekognitionCompareFaces BUCKET_NAME
                     (reference_key [("userId", PStr "p1");
                                     ("role", PStr "patient");
                                     ("selfieImage", PStr "abcd")])
                     [105; 183; 29]%Z 80;
         returned := false |} ].
Proof.
  apply (missing_reference_is_not_found
           (identity_services (Returns [92.5%Q]) (Returns tt))
           (post [("userId", PStr "p1"); ("role", PStr "patient");
                  ("selfieImage", PStr "abcd")])
           [("userId", PStr "p1"); ("role", PStr "patient");
            ("selfieImage", PStr "abcd")]
           [105; 183; 29]%Z empty_world).
  - repeat split; try reflexivity. discriminate.
  - reflexivity.
  - reflexivity.
Defined.






(** The ID-card step touches the image store only. *)
Lemma save_id_card_effects (e : env) (d : pydict) (key : string)
      (w w1 : world) (o : outcome response unit) :
  save_id_card e d key w = (o, w1) ->
  tables w1 = tables w /\
  exists l, calls w1 = calls w ++ l /\
            Forall (fun en => is_record_update (issued en) = false) l.
Proof.
  intros H.
  assert (G : wp (save_id_card e d key)
                 (fun _ w' =>
                    tables w' = tables w /\
                    exists l, calls w' = calls w ++ l /\
                      Forall (fun en => is_record_update (issued en) = false)
                             l) w).
  { identity_paths; cbn; (split; [reflexivity|]);
      rewrite <- ?app_assoc;
      first [ exists []; split; [now rewrite app_nil_r | constructor]
            | eexists; split; [reflexivity | repeat constructor] ]. }
  unfold wp in G. now rewrite H in G.
Qed.

Lemma Qle_bool_80 (s : Q) : Qle_bool 80 s = true <-> (80 <= s)%Q.
Proof. apply Qle_bool_iff. Qed.

(** C4. Once an accepted request reaches the comparison with a reference
    image in the store and the service answers, the match flag is true
    exactly when the service returned a face pair of similarity at least
    80. With no pair returned the handler answers 200 with
    [verified = false], [confidence = 0], the non-match message and
    [photoUrl = null], the record store is as before and no record update
    was issued. *)
Theorem comparison_decides_match
        (e : env) (ev : event) (d : pydict) (selfie_bytes : list Z)
        (w w1 : world) (o : s3_object) (sims : list Q) :
  accepted ev d selfie_bytes ->
  save_id_card e d (reference_key d) w = (Normal tt, w1) ->
  objects w1 !! (BUCKET_NAME, reference_key d) = Some o ->
  faces_compared e = Returns sims ->
  exists face_matches w2 verification_result confidence message,
    compare_faces (R := response) (faces_compared e) BUCKET_NAME
                  (reference_key d) selfie_bytes 80 w1
    = (Normal face_matches, w2) /\
    run_rekognition e (reference_key d) selfie_bytes w1
    = (Normal (verification_result, confidence, message), w2) /\
    (verification_result = true <->
     exists m, In m face_matches /\ (80 <= Similarity m)%Q) /\
    (face_matches = [] ->
     exists w',
       invoke (lambda_handler e ev) w
       = (Some (respond 200
                  (DumpsObj
                     [("verified", JBool false);
                      ("confidence", JNum 0);
                      ("message",
                       JStr "Face does not match the provided ID card.");
                      ("photoUrl", JNull)])), w') /\
       tables w' = tables w /\
       no_record_update (issued_by (lambda_handler e ev) w)).
Proof.
  intros (Hm & Hd & Hu & Hs & Hb) Hsave Href Hfaces.
  assert (Hcmp : compare_faces (R := response) (faces_compared e) BUCKET_NAME
                   (reference_key d) selfie_bytes 80 w1
                 = (Normal (map Build_face_match
                              (List.filter (fun s => Qle_bool 80 s) sims)),
                    log (RekognitionCompareFaces BUCKET_NAME (reference_key d)
                           selfie_bytes 80) true w1)).
  { unfold compare_faces. now rewrite Href, Hfaces. }
  destruct (List.filter (fun s => Qle_bool 80 s) sims) as [|s0 rest] eqn:Hf.
  - eexists _, _, false, 0%Q, _. split; [exact Hcmp|]. split; [|split].
    + unfold run_rekognition, try_except, bind. now rewrite Hcmp.
    + split; [discriminate|]. now intros (m & [] & _).
    + intros _.
      destruct (save_id_card_effects _ _ _ _ _ _ Hsave) as (Ht & l & Hl & Hno).
      unfold no_record_update, issued_by.
      apply (wp_invoke _ (fun rw => exists w', rw = (_, w') /\ _ /\
               forall entry, In entry (drop _ (calls rw.2)) -> _)).
      unfold lambda_handler, parse_body, reference_key, role_of in *.
      rewrite Hd.
      repeat first
        [ eapply wp_known; [exact Hsave|]
        | eapply wp_known; [exact Hcmp|]
        | wp_step
        | progress unfold decode, run_rekognition, update_database ];
        try unfeasible.
      all: simplify_eq.
      all: try match goal with
               | H : map Build_face_match _ = _ :: _ |- _ =>
                   rewrite Hf in H; discriminate H
               end.
      eexists. split; [reflexivity|]. split; [exact Ht|].
      cbn. rewrite Hl, <- app_assoc, drop_app_length.
      intros entry Hin. apply in_app_or in Hin as [Hin | [<- | []]].
      * rewrite List.Forall_forall in Hno. now apply Hno.
      * reflexivity.
  - eexists _, _, true, s0, _. split; [exact Hcmp|]. split; [|split].
    + unfold run_rekognition, try_except, bind. now rewrite Hcmp.
    + split; [|reflexivity]. intros _. exists {| Similarity := s0 |}.
      split; [now left|]. cbn. apply Qle_bool_80.
      assert (Hin : In s0 (List.filter (fun s => Qle_bool 80 s) sims))
        by (rewrite Hf; now left).
      now apply filter_In in Hin.
    + discriminate.
Qed.

(** X2. Whatever the request: a response that says [verified] comes from
    a comparison that returned a face pair of similarity at least 80. *)
Lemma verified_needs_a_match (e : env) (ev : event) (w : world)
      (r : response) :
  (invoke (lambda_handler e ev) w).1 = Some r ->
  field r "verified" = Some (JBool true) ->
  exists sims s,
    faces_compared e = Returns sims /\ In s sims /\ (80 <= s)%Q.
Proof.
  apply (wp_invoke _ (fun rw => rw.1 = Some r -> _ -> _)).
  unfold lambda_handler.
  identity_paths; cbn; intros [= <-] Hv; try discriminate Hv.
  all: match goal with
       | H : map Build_face_match (List.filter _ ?sims) = ?m :: _ |- _ =>
           exists sims, (Similarity m);
           assert (Hin : In m (map Build_face_match
                                   (List.filter (fun x => Qle_bool 80 x) sims)))
             by (rewrite H; now left);
           apply in_map_iff in Hin as (sim & <- & Hin);
           apply filter_In in Hin as [Hin Hle];
           repeat split; [exact Hin | now apply Qle_bool_80]
       end.
Qed.

(** [base64.b64decode] without [validate=True] skips what is outside the
    alphabet: such a selfie is not rejected at step 3. *)
Example lenient_decoding :
  b64decode (PStr "!!!!") = Some [] /\
  exists r,
    (invoke (lambda_handler (identity_services (Returns []) (Returns tt))
               (post [("userId", PStr "p1"); ("selfieImage", PStr "!!!!")]))
            empty_world).1 = Some r /\
    statusCode r = 404%Z.
Proof. split; [reflexivity|]. eexists. split; reflexivity. Qed.

Lemma comparison_decides_match_witness :
  exists face_matches w2 verification_result confidence message,
    compare_faces (R := response)
      (faces_compared (identity_services (Returns [42%Q]) (Returns tt)))
      BUCKET_NAME
      (reference_key [("userId", PStr "d1"); ("role", PStr "provider");
                      ("selfieImage", PStr "abcd")])
      [105; 183; 29]%Z 80 approved_doctor_with_id
    = (Normal face_matches, w2) /\
    run_rekognition (identity_services (Returns [42%Q]) (Returns tt))
      (reference_key [("userId", PStr "d1"); ("role", PStr "provider");
                      ("selfieImage", PStr "abcd")])
      [105; 183; 29]%Z approved_doctor_with_id
    = (Normal (verification_result, confidence, message), w2) /\
    (verification_result = true <->
     exists m, In m face_matches /\ (80 <= Similarity m)%Q) /\
    (face_matches = [] ->
     exists w',
       invoke (lambda_handler (identity_services (Returns [42%Q]) (Returns tt))
                 (post [("userId", PStr "d1"); ("role", PStr "provider");
                        ("selfieImage", PStr "abcd")]))
              approved_doctor_with_id
       = (Some (respond 200
                  (DumpsObj
                     [("verified", JBool false);
                      ("confidence", JNum 0);
                      ("message",
                       JStr "Face does not match the provided ID card.");
                      ("photoUrl", JNull)])), w') /\
       tables w' = tables approved_doctor_with_id /\
       no_record_update
         (issued_by
            (lambda_handler (identity_services (Returns [42%Q]) (Returns tt))
               (post [("userId", PStr "d1"); ("role", PStr "provider");
                      ("selfieImage", PStr "abcd")]))
            approved_doctor_with_id)).
Proof.
  apply (comparison_decides_match
           (identity_services (Returns [42%Q]) (Returns tt))
           (post [("userId", PStr "d1"); ("role", PStr "provider");
                  ("selfieImage", PStr "abcd")])
           [("userId", PStr "d1"); ("role", PStr "provider");
            ("selfieImage", PStr "abcd")]
           [105; 183; 29]%Z approved_doctor_with_id approved_doctor_with_id
           {| Body := [105; 183; 29]%Z; ContentType := "image/jpeg";
              TagSet := [("auto-delete", "true")] |}
           [42%Q]).
  - repeat split; try reflexivity. discriminate.
  - reflexivity.
  - reflexivity.
  - reflexivity.
Defined.

Lemma identity_update_item (user_role user_id : pyval)
      (old : gmap string pyval) :
  apply_assignments (identity_update user_role user_id) old !! "avatar"
  = Some (PStr (selfie_key user_role user_id)) /\
  apply_assignments (identity_update user_role user_id) old
    !! "isIdentityVerified" = Some (PBool true) /\
  apply_assignments (identity_update user_role user_id) old
    !! "verificationStatus"
  = Some (PStr (if bool_decide (user_role = PStr "doctor")
                then "PENDING_REVIEW" else "VERIFIED")).
Proof.
  unfold identity_update, apply_assignments. cbn [fold_left fst snd].
  repeat split.
  - rewrite !lookup_insert_ne by discriminate. apply lookup_insert_eq.
  - rewrite lookup_insert_ne by discriminate. apply lookup_insert_eq.
  - apply lookup_insert_eq.
Qed.

(** C5. Once the comparison of an accepted request succeeds and the image
    store takes the selfie and signs a URL, the handler answers 200 with
    that URL as [photoUrl]; the selfie is stored under the selfie key; the
    last call issued is the record update, after the signing of a URL
    valid 3600 seconds, and it sets [avatar] to the selfie key (not the
    URL), [isIdentityVerified] to true and [verificationStatus] to
    PENDING_REVIEW for a doctor and VERIFIED otherwise, so VERIFIED for a
    patient; when the record store accepts the update the record holds
    these values. *)
Theorem verified_selfie_is_recorded
        (e : env) (ev : event) (d : pydict) (selfie_bytes : list Z)
        (w w1 : world) (o : s3_object) (sims rest : list Q) (s : Q)
        (url : string) :
  accepted ev d selfie_bytes ->
  save_id_card e d (reference_key d) w = (Normal tt, w1) ->
  objects w1 !! (BUCKET_NAME, reference_key d) = Some o ->
  faces_compared e = Returns sims ->
  List.filter (fun x => Qle_bool 80 x) sims = s :: rest ->
  put_selfie e = Returns tt ->
  presigned_url e = Returns url ->
  exists w' uploads,
    invoke (lambda_handler e ev) w
    = (Some (respond 200
               (DumpsObj
                  [("verified", JBool true);
                   ("confidence", JNum s);
                   ("message",
                    JStr ("Identity Verified. Confidence: " +:+ format_2f s
                          +:+ "%"));
                   ("photoUrl", JStr url)])), w') /\
    objects w' !! (BUCKET_NAME, selfie_key (role_of d) (get d "userId"))
    = Some {| Body := selfie_bytes; ContentType := "image/jpeg";
              TagSet := [] |} /\
    calls w1 = calls w ++ uploads /\
    issued_by (lambda_handler e ev) w =
    uploads ++
    [ {| issued := RekognitionCompareFaces BUCKET_NAME (reference_key d)
                     selfie_bytes 80;
         returned := true |};
      {| issued := S3PutObject BUCKET_NAME
                     (selfie_key (role_of d) (get d "userId"))
                     selfie_bytes "image/jpeg";
         returned := true |};
      {| issued := S3GeneratePresignedUrl BUCKET_NAME
                     (selfie_key (role_of d) (get d "userId")) 3600;
         returned := true |};
      {| issued := DynamoUpdateItem (table_name (role_of d))
                     (id_key_field (role_of d)) (get d "userId")
                     [("avatar",
                       PStr (selfie_key (role_of d) (get d "userId")));
                      ("isIdentityVerified", PBool true);
                      ("verificationStatus",
                       PStr (if bool_decide (role_of d = PStr "doctor")
                             then "PENDING_REVIEW" else "VERIFIED"))];
         returned := returns (profile_update e) |} ] /\
    (profile_update e = Returns tt ->
     exists item,
       tables w' !! (table_name (role_of d), get d "userId") = Some item /\
       item !! "avatar"
       = Some (PStr (selfie_key (role_of d) (get d "userId"))) /\
       item !! "isIdentityVerified" = Some (PBool true) /\
       item !! "verificationStatus"
       = Some (PStr (if bool_decide (role_of d = PStr "doctor")
                     then "PENDING_REVIEW" else "VERIFIED"))) /\
    (profile_update e = Returns tt -> role_of d = PStr "doctor" ->
     status_of w' "mediconnect-doctors" (get d "userId")
     = Some (PStr "PENDING_REVIEW")) /\
    (profile_update e = Returns tt -> role_of d = PStr "patient" ->
     status_of w' "mediconnect-patients" (get d "userId")
     = Some (PStr "VERIFIED")).
Proof.
  intros (Hm & Hd & Hu & Hs & Hb) Hsave Href Hfaces Hf Hput Hurl.
  destruct (save_id_card_effects _ _ _ _ _ _ Hsave) as (Ht & l & Hl & _).
  unfold issued_by.
  apply (wp_invoke _ (fun rw => exists w' uploads, rw = (_, w') /\ _ /\ _ /\
           drop _ (calls rw.2) = _ /\ _ /\ _ /\ _)).
  unfold lambda_handler, parse_body, reference_key, role_of in *.
  rewrite Hd.
  repeat first
    [ eapply wp_known; [exact Hsave|]
    | wp_step
    | progress unfold decode, run_rekognition, update_database ];
    try unfeasible.
  all: simplify_eq.
  all: try match goal with
           | H : map Build_face_match _ = _ |- _ =>
               rewrite Hf in H; cbn in H; simplify_eq
           end.
  all: eexists _, l; cbn.
  all: rewrite Hl, <- ?app_assoc, drop_app_length.
  all: (split; [reflexivity|]).
  all: (split; [apply lookup_insert_eq|]).
  all: (split; [reflexivity|]).
  all: (split; [reflexivity|]).
  - pose proof (identity_update_item
                  (normalize_role (get_default d "role" (PStr "patient")))
                  (get d "userId")) as Hitem.
    split; [|split].
    + intros _. eexists. split; [apply lookup_insert_eq|]. apply Hitem.
    + intros _ Hrole. unfold status_of. cbn.
      rewrite Hrole at 1. change (table_name (PStr "doctor"))
        with "mediconnect-doctors".
      rewrite lookup_insert_eq. cbn.
      destruct (Hitem (default
        {[id_key_field (normalize_role (get_default d "role" (PStr "patient")))
          := get d "userId"]}
        (tables w1 !! (table_name
           (normalize_role (get_default d "role" (PStr "patient"))),
           get d "userId")))) as (_ & _ & ->).
      now rewrite Hrole.
    + intros _ Hrole. unfold status_of. cbn.
      rewrite Hrole at 1. change (table_name (PStr "patient"))
        with "mediconnect-patients".
      rewrite lookup_insert_eq. cbn.
      destruct (Hitem (default
        {[id_key_field (normalize_role (get_default d "role" (PStr "patient")))
          := get d "userId"]}
        (tables w1 !! (table_name
           (normalize_role (get_default d "role" (PStr "patient"))),
           get d "userId")))) as (_ & _ & ->).
      now rewrite Hrole.
  - repeat split; discriminate.
Qed.

Lemma verified_selfie_is_recorded_witness :
  exists w' uploads,
    invoke (lambda_handler
              (identity_services (Returns [92.5%Q]) (Returns tt))
              (post patient_request)) empty_world
    = (Some (respond 200
               (DumpsObj
                  [("verified", JBool true);
                   ("confidence", JNum 92.5);
                   ("message",
                    JStr ("Identity Verified. Confidence: "
                          +:+ format_2f 92.5 +:+ "%"));
                   ("photoUrl", JStr "https://signed.example/selfie")])),
       w') /\
    objects w' !! (BUCKET_NAME,
                   selfie_key (role_of patient_request)
                              (get patient_request "userId"))
    = Some {| Body := [105; 183; 29]%Z; ContentType := "image/jpeg";
              TagSet := [] |} /\
    calls (save_id_card (identity_services (Returns [92.5%Q]) (Returns tt))
             patient_request (reference_key patient_request)
             empty_world).2
    = calls empty_world ++ uploads /\
    issued_by (lambda_handler
                 (identity_services (Returns [92.5%Q]) (Returns tt))
                 (post patient_request)) empty_world =
    uploads ++
    [ {| issued := RekognitionCompareFaces BUCKET_NAME
                     (reference_key patient_request) [105; 183; 29]%Z 80;
         returned := true |};
      {| issued := S3PutObject BUCKET_NAME
                     (selfie_key (role_of patient_request)
                                 (get patient_request "userId"))
                     [105; 183; 29]%Z "image/jpeg";
         returned := true |};
      {| issued := S3GeneratePresignedUrl BUCKET_NAME
                     (selfie_key (role_of patient_request)
                                 (get patient_request "userId")) 3600;
         returned := true |};
      {| issued := DynamoUpdateItem (table_name (role_of patient_request))
                     (id_key_field (role_of patient_request))
                     (get patient_request "userId")
                     [("avatar",
                       PStr (selfie_key (role_of patient_request)
                                        (get patient_request "userId")));
                      ("isIdentityVerified", PBool true);
                      ("verificationStatus",
                       PStr (if bool_decide
                                  (role_of patient_request = PStr "doctor")
                             then "PENDING_REVIEW" else "VERIFIED"))];
         returned := returns (profile_update
                       (identity_services (Returns [92.5%Q]) (Returns tt)))
      |} ] /\
    (profile_update (identity_services (Returns [92.5%Q]) (Returns tt))
     = Returns tt ->
     exists item,
       tables w' !! (table_name (role_of patient_request),
                     get patient_request "userId") = Some item /\
       item !! "avatar"
       = Some (PStr (selfie_key (role_of patient_request)
                                (get patient_request "userId"))) /\
       item !! "isIdentityVerified" = Some (PBool true) /\
       item !! "verificationStatus"
       = Some (PStr (if bool_decide (role_of patient_request = PStr "doctor")
                     then "PENDING_REVIEW" else "VERIFIED"))) /\
    (profile_update (identity_services (Returns [92.5%Q]) (Returns tt))
     = Returns tt ->
     role_of patient_request = PStr "doctor" ->
     status_of w' "mediconnect-doctors" (get patient_request "userId")
     = Some (PStr "PENDING_REVIEW")) /\
    (profile_update (identity_services (Returns [92.5%Q]) (Returns tt))
     = Returns tt ->
     role_of patient_request = PStr "patient" ->
     status_of w' "mediconnect-patients" (get patient_request "userId")
     = Some (PStr "VERIFIED")).
Proof.
  apply (verified_selfie_is_recorded
           (identity_services (Returns [92.5%Q]) (Returns tt))
           (post patient_request) patient_request [105; 183; 29]%Z
           empty_world
           (save_id_card (identity_services (Returns [92.5%Q]) (Returns tt))
              patient_request (reference_key patient_request)
              empty_world).2
           {| Body := [105; 183; 29]%Z; ContentType := "image/jpeg";
              TagSet := [("auto-delete", "true")] |}
           [92.5%Q] []).
  - repeat split; try reflexivity. discriminate.
  - reflexivity.
  - reflexivity.
  - reflexivity.
  - reflexivity.
  - reflexivity.
  - reflexivity.
Defined.

(** The record store after a run: as before, or with the one upsert of a
    verified request. *)
Lemma identity_tables (e : env) (ev : event) (w : world) :
  tables (invoke (lambda_handler e ev) w).2 = tables w \/
  exists d r,
    (invoke (lambda_handler e ev) w).1 = Some r /\
    field r "verified" = Some (JBool true) /\
    tables (invoke (lambda_handler e ev) w).2
    = <[(table_name (role_of d), get d "userId") :=
          apply_assignments
            (identity_update (role_of d) (get d "userId"))
            (default {[ id_key_field (role_of d) := get d "userId" ]}
                     (tables w !! (table_name (role_of d),
                                   get d "userId")))]> (tables w).
Proof.
  apply (wp_invoke _ (fun rw => tables rw.2 = tables w \/
           exists d r, rw.1 = Some r /\ _ /\ tables rw.2 = _)).
  unfold lambda_handler, role_of.
  identity_paths; cbn; try (left; reflexivity).
  all: right; eexists _, _; repeat split.
Qed.


(** C8. The record update raises after a successful match: the handler
    answers 200 with the decision, and the response is field for field
    the one of a run whose update went through; the failure text, kept in
    [db_status], reaches no field of the response. *)
Theorem persistence_failure_not_in_response :
  (invoke (lambda_handler
             (identity_services (Returns [92.5%Q])
                (Fails "ProvisionedThroughputExceededException"))
             (post patient_request)) empty_world).1
  = Some (respond 200
            (DumpsObj
               [("verified", JBool true);
                ("confidence", JNum 92.5);
                ("message", JStr "Identity Verified. Confidence: 92.50%");
                ("photoUrl", JStr "https://signed.example/selfie")]))
  /\ (invoke (lambda_handler
                (identity_services (Returns [92.5%Q])
                   (Fails "ProvisionedThroughputExceededException"))
                (post patient_request)) empty_world).1
     = (invoke (lambda_handler
                  (identity_services (Returns [92.5%Q]) (Returns tt))
                  (post patient_request)) empty_world).1
  /\ List.last
       (issued_by (lambda_handler
                     (identity_services (Returns [92.5%Q])
                        (Fails "ProvisionedThroughputExceededException"))
                     (post patient_request)) empty_world)
       {| issued := SnsPublish "" "" ""; returned := true |}
     = {| issued := DynamoUpdateItem "mediconnect-patients" "patientId"
                      (PStr "p1")
                      [("avatar", PStr "patient/p1/selfie_verified.jpg");
                       ("isIdentityVerified", PBool true);
                       ("verificationStatus", PStr "VERIFIED")];
          returned := false |}
  /\ status_of
       (invoke (lambda_handler
                  (identity_services (Returns [92.5%Q])
                     (Fails "ProvisionedThroughputExceededException"))
                  (post patient_request)) empty_world).2
       "mediconnect-patients" (PStr "p1")
     = None.
Proof. repeat split; reflexivity. Qed.

End IdentityFacts.

(* ===================================================================== *)
(** * Status tiers across runs *)
(* ===================================================================== *)

Module Monotonicity.
Import PyVal Runtime Observe Scenario.





End Monotonicity.

(* ===================================================================== *)
(** * More on the keyword check *)
(* ===================================================================== *)

Module ScannerMore.
Import PyText Re DiplomaScanner WholeWord WholeWordFacts More.

(** ** Letter case *)








(** ** Lines *)








End ScannerMore.

(* ===================================================================== *)
(** * More on the diploma handler *)
(* ===================================================================== *)

Module DocumentMore.
Import PyText PyVal Runtime DiplomaScanner DocumentHandler.
Import Observe Scenario More MoreScenario DocumentFacts.

(** ** The doctor id in the object key *)

Lemma append_cons (c : ascii) (s t : string) :
  String c s +:+ t = String c (s +:+ t).
Proof. reflexivity. Qed.

Lemma append_nil (t : string) : "" +:+ t = t.
Proof. reflexivity. Qed.

Lemma split_segment (a rest : string) :
  slash_free a ->
  split "/" (a +:+ String "/" rest) = a :: split "/" rest.
Proof.
  unfold slash_free. induction a as [|c a IH]; intros Hfree.
  - reflexivity.
  - rewrite append_cons. cbn [split].
    destruct (Ascii.eqb_spec c "/") as [-> | Hc].
    + exfalso. apply Hfree. now left.
    + rewrite IH; [reflexivity|]. intros Hin. apply Hfree. now right.
Qed.

Lemma split_last_segment (a : string) :
  slash_free a -> split "/" a = [a].
Proof.
  unfold slash_free. induction a as [|c a IH]; intros Hfree.
  - reflexivity.
  - cbn [split]. destruct (Ascii.eqb_spec c "/") as [-> | Hc].
    + exfalso. apply Hfree. now left.
    + rewrite IH; [reflexivity|]. intros Hin. apply Hfree. now right.
Qed.

Lemma split_nonempty (s : string) : split "/" s <> [].
Proof.
  destruct s as [|c s]; cbn; [discriminate|].
  destruct (Ascii.eqb c "/"); [discriminate|].
  destruct (split "/" s); discriminate.
Qed.

(** X5. For a key [<first>/doctors/<id>], with or without further
    segments, where [<first>] and [<id>] hold no slash, the doctor id is
    [<id>]. *)
Theorem doctor_id_of_doctors_path (pre id tail : string) :
  slash_free pre -> slash_free id ->
  tail = "" \/ (exists rest, tail = String "/" rest) ->
  doctor_id_of_key (pre +:+ "/doctors/" +:+ id +:+ tail) = id.
Proof.
  intros Hpre Hid Htail. unfold doctor_id_of_key.
  change ("/doctors/" +:+ id +:+ tail)
    with (String "/" ("doctors" +:+ String "/" (id +:+ tail))).
  rewrite split_segment by exact Hpre.
  rewrite split_segment by (intros [H|[H|[H|[H|[H|[H|[H|[]]]]]]]]; discriminate H).
  destruct Htail as [-> | (rest & ->)].
  - replace (id +:+ "") with id
      by (clear; induction id; [reflexivity | rewrite append_cons; congruence]).
    rewrite split_last_segment by exact Hid. reflexivity.
  - rewrite split_segment by exact Hid.
    destruct (split "/" rest) eqn:E; reflexivity.
Qed.

Lemma doctor_id_of_doctors_path_witness :
  doctor_id_of_key ("uploads" +:+ "/doctors/" +:+ "d1" +:+ "/diploma.png")
  = "d1".
Proof.
  apply (doctor_id_of_doctors_path "uploads" "d1" "/diploma.png").
  - unfold slash_free. cbn. intuition discriminate.
  - unfold slash_free. cbn. intuition discriminate.
  - right. now exists "diploma.png".
Defined.

(** X6. A key without a slash gives the id [unknown_doc]. A key of two or
    more segments whose second segment is not [doctors] gives that second
    segment as the id, whatever it is. *)
Theorem doctor_id_fallbacks (a b tail : string) :
  slash_free a -> slash_free b -> b <> "doctors" ->
  tail = "" \/ (exists rest, tail = String "/" rest) ->
  doctor_id_of_key a = "unknown_doc" /\
  doctor_id_of_key (a +:+ "/" +:+ b +:+ tail) = b.
Proof.
  intros Ha Hb Hne Htail. unfold doctor_id_of_key. split.
  - now rewrite split_last_segment.
  - change ("/" +:+ b +:+ tail) with (String "/" (b +:+ tail)).
    rewrite split_segment by exact Ha.
    assert (Heqb : String.eqb b "doctors" = false)
      by now apply String.eqb_neq.
    destruct Htail as [-> | (rest & ->)].
    + replace (b +:+ "") with b
        by (clear; induction b; [reflexivity | rewrite append_cons; congruence]).
      rewrite split_last_segment by exact Hb. reflexivity.
    + rewrite split_segment by exact Hb.
      cbn [length nth]. rewrite Heqb, andb_false_r. reflexivity.
Qed.

Lemma doctor_id_fallbacks_witness :
  doctor_id_of_key "diploma.png" = "unknown_doc" /\
  doctor_id_of_key ("diploma.png" +:+ "/" +:+ "patients" +:+ "/p1/scan.png")
  = "patients".
Proof.
  apply (doctor_id_fallbacks "diploma.png" "patients" "/p1/scan.png").
  - unfold slash_free. cbn. intuition discriminate.
  - unfold slash_free. cbn. intuition discriminate.
  - discriminate.
  - right. now exists "p1/scan.png".
Defined.

(** ** Responses *)

Lemma scan_diploma_outcome {R} (svc : call_result textract_response)
      (bucket key : string) (w : world) :
  scan_diploma (R := R) svc bucket key w
  = (Normal (scan_outcome svc),
     log (TextractDetectDocumentText bucket key) (returns svc) w).
Proof. unfold scan_diploma. now destruct svc. Qed.

(** X7. The diploma handler always answers, whatever the services do. An
    event without the S3 record is answered 400 with the plain body
    [Invalid Event] and the world is untouched. Any other event is answered
    200 with message [Processed], the doctor id read from the key, and the
    verdict of the scan. *)
Theorem document_handler_statuses (e : env) (ev : event) (w : world) :
  exists r,
    (invoke (lambda_handler e ev) w).1 = Some r /\
    match ev with
    | None =>
        r = {| statusCode := 400; headers := [];
               body := Plain "Invalid Event" |} /\
        (invoke (lambda_handler e ev) w).2 = w
    | Some (bucket, key) =>
        statusCode r = 200%Z /\
        field r "message" = Some (JStr "Processed") /\
        field r "doctor_id" = Some (JStr (doctor_id_of_key key)) /\
        field r "scan_passed"
        = Some (JBool (result_passed (scan_outcome (textract_detect e))))
    end.
Proof.
  destruct ev as [[bucket key]|].
  - document_paths e; eexists; repeat split; cbn; congruence.
  - eexists. repeat split.
Qed.

(** ** Analytics and notification are side effects *)

(** X8. The outcome of the analytics call changes nothing else: the
    response, the record store and all other calls issued are the same
    whether it returns true, returns false or raises. *)
Theorem analytics_is_best_effort
        (e : env) (r1 r2 : call_result bool) (ev : event) (w : world) :
  (invoke (lambda_handler (with_bigquery r1 e) ev) w).1
  = (invoke (lambda_handler (with_bigquery r2 e) ev) w).1 /\
  tables (invoke (lambda_handler (with_bigquery r1 e) ev) w).2
  = tables (invoke (lambda_handler (with_bigquery r2 e) ev) w).2 /\
  List.filter (fun en => negb (is_analytics (issued en)))
              (issued_by (lambda_handler (with_bigquery r1 e) ev) w)
  = List.filter (fun en => negb (is_analytics (issued en)))
                (issued_by (lambda_handler (with_bigquery r2 e) ev) w).
Proof.
  destruct ev as [[bucket key]|]; [|repeat split].
  destruct e as [tx bq upd sns].
  unfold with_bigquery, issued_by, invoke, lambda_handler, scan_diploma,
    record_doctor_event.
  destruct tx as [resp|?]; cbn;
    destruct r1, r2; cbn;
    try (destruct (result_passed (verify_text (full_text_of resp))); cbn);
    destruct upd as [[]|?]; cbn;
    try (destruct sns as [[]|?]; cbn);
    rewrite <- ?app_assoc, ?drop_app_length; repeat split.
Qed.

(** X9. The scan passes, the record update goes through and the
    notification raises: the record is [PENDING_REVIEW] in the store, while
    [db_status] in the response reads [DynamoDB Update Failed:] followed by
    the error of the notification. *)
Theorem publish_failure_reported_as_update_failure
        (e : env) (bucket key msg : string) (w : world) :
  result_passed (scan_outcome (textract_detect e)) = true ->
  doctors_update e = Returns tt ->
  sns_publish e = Fails msg ->
  exists r,
    (invoke (lambda_handler e (Some (bucket, key))) w).1 = Some r /\
    statusCode r = 200%Z /\
    field r "scan_passed" = Some (JBool true) /\
    field r "db_status"
    = Some (JStr ("DynamoDB Update Failed: " +:+ msg)) /\
    status_of (invoke (lambda_handler e (Some (bucket, key))) w).2
              TABLE_NAME (PStr (doctor_id_of_key key))
    = Some (PStr "PENDING_REVIEW").
Proof.
  intros Hp Hupd Hsns. destruct e as [tx bq upd sns]. cbn in *. subst.
  destruct tx as [resp|m]; [|discriminate Hp]. cbn in Hp.
  unfold invoke, lambda_handler, scan_diploma, record_doctor_event.
  destruct bq; cbn; rewrite ?Hp; cbn; eexists; repeat split.
  all: unfold status_of; cbn [tables log set_tables snd].
  all: rewrite lookup_insert_eq; cbn [mbind option_bind].
  all: unfold diploma_update, apply_assignments; cbn [fold_left fst snd].
  all: apply lookup_insert_eq.
Qed.

Lemma publish_failure_reported_as_update_failure_witness :
  exists r,
    (invoke (lambda_handler alert_topic_down
               (Some ("bucket", "uploads/doctors/d1/diploma.png")))
            empty_world).1 = Some r /\
    statusCode r = 200%Z /\
    field r "scan_passed" = Some (JBool true) /\
    field r "db_status"
    = Some (JStr ("DynamoDB Update Failed: " +:+ "NotFound")) /\
    status_of (invoke (lambda_handler alert_topic_down
                         (Some ("bucket", "uploads/doctors/d1/diploma.png")))
                      empty_world).2
              TABLE_NAME
              (PStr (doctor_id_of_key "uploads/doctors/d1/diploma.png"))
    = Some (PStr "PENDING_REVIEW").
Proof.
  apply (publish_failure_reported_as_update_failure alert_topic_down
           "bucket" "uploads/doctors/d1/diploma.png" "NotFound" empty_world);
    reflexivity.
Defined.

(** ** The record update *)

Lemma lookup_apply_assignments (assignments : list (string * pyval))
      (it : gmap string pyval) (attr : string) :
  apply_assignments assignments it !! attr
  = match last_assigned assignments attr with
    | Some x => Some x
    | None => it !! attr
    end.
Proof.
  unfold apply_assignments. revert it.
  induction assignments as [|[k v] rest IH]; intros it; [reflexivity|].
  cbn [fold_left last_assigned fst snd]. rewrite IH.
  destruct (last_assigned rest attr); [reflexivity|].
  destruct (String.eqb_spec k attr) as [-> | Hne].
  - apply lookup_insert_eq.
  - now apply lookup_insert_ne.
Qed.

Lemma apply_assignments_twice (assignments : list (string * pyval))
      (it : gmap string pyval) :
  apply_assignments assignments (apply_assignments assignments it)
  = apply_assignments assignments it.
Proof.
  apply map_eq. intros attr. rewrite !lookup_apply_assignments.
  now destruct (last_assigned assignments attr).
Qed.

Lemma last_assigned_none (assignments : list (string * pyval))
      (attr : string) :
  ~ In attr (map fst assignments) -> last_assigned assignments attr = None.
Proof.
  induction assignments as [|[k v] rest IH]; intros Hnot; [reflexivity|].
  cbn [last_assigned]. rewrite IH by (intros H; apply Hnot; now right).
  destruct (String.eqb_spec k attr) as [-> | Hne]; [|reflexivity].
  exfalso. apply Hnot. now left.
Qed.

(** What the record store looks like after a run on a well-formed event. *)
Lemma document_run_tables (e : env) (bucket key : string) (w : world) :
  tables (invoke (lambda_handler e (Some (bucket, key))) w).2
  = if returns (doctors_update e)
    then <[(TABLE_NAME, PStr (doctor_id_of_key key)) :=
             apply_assignments
               (diploma_update
                  (result_passed (scan_outcome (textract_detect e)))
                  bucket key)
               (default {[ "doctorId" := PStr (doctor_id_of_key key) ]}
                        (tables w !! (TABLE_NAME,
                                      PStr (doctor_id_of_key key))))]>
           (tables w)
    else tables w.
Proof.
  document_paths e; try reflexivity; cbn; now rewrite Hp.
Qed.

Lemma document_run_issued (e : env) (ev : event) (w w' : world) :
  issued_by (lambda_handler e ev) w' = issued_by (lambda_handler e ev) w.
Proof.
  destruct ev as [[bucket key]|].
  - document_paths e; rewrite <- ?app_assoc, ?drop_app_length; reflexivity.
  - unfold issued_by. cbn. now rewrite !drop_all.
Qed.

(** X10. The same event delivered a second time, the services behaving as
    before: the record store is as the first run left it, and the same
    calls are issued again, the reviewer notification included. The
    handler keeps no memory of the keys it has processed. *)
Theorem redelivery_rewrites_and_renotifies
        (e : env) (ev : event) (w : world) :
  tables (invoke (lambda_handler e ev)
                 (invoke (lambda_handler e ev) w).2).2
  = tables (invoke (lambda_handler e ev) w).2 /\
  issued_by (lambda_handler e ev) (invoke (lambda_handler e ev) w).2
  = issued_by (lambda_handler e ev) w.
Proof.
  split; [|apply document_run_issued].
  destruct ev as [[bucket key]|]; [|reflexivity].
  rewrite (document_run_tables e bucket key (invoke _ w).2).
  rewrite (document_run_tables e bucket key w).
  destruct (returns (doctors_update e)); [|reflexivity].
  rewrite lookup_insert_eq. cbn [from_option id].
  rewrite apply_assignments_twice. apply insert_insert_eq.
Qed.

(** X11. A run of the diploma handler keeps every record that exists, and
    on it every attribute other than the three its update assigns. *)
Theorem diploma_update_is_field_scoped
        (e : env) (ev : event) (w : world) (table : string) (key : pyval)
        (item : gmap string pyval) (attr : string) :
  tables w !! (table, key) = Some item ->
  ~ In attr diploma_attributes ->
  exists item',
    tables (invoke (lambda_handler e ev) w).2 !! (table, key) = Some item' /\
    item' !! attr = item !! attr.
Proof.
  intros Hitem Hattr.
  destruct ev as [[bucket s3_key]|]; [|now exists item].
  rewrite document_run_tables.
  destruct (returns (doctors_update e)); [|now exists item].
  destruct (decide ((TABLE_NAME, PStr (doctor_id_of_key s3_key))
                    = (table, key))) as [Heq | Hne].
  - rewrite Heq, lookup_insert_eq, Hitem. eexists. split; [reflexivity|].
    cbn [from_option id]. rewrite lookup_apply_assignments.
    now rewrite last_assigned_none by (destruct (result_passed _); exact Hattr).
  - rewrite lookup_insert_ne by exact Hne. now exists item.
Qed.

Lemma diploma_update_is_field_scoped_witness :
  exists item',
    tables (invoke (lambda_handler cat_photo diploma_upload)
                   approved_doctor).2
      !! ("mediconnect-doctors", PStr "d1") = Some item' /\
    item' !! "doctorId"
    = ({[ "doctorId" := PStr "d1";
          "verificationStatus" := PStr "OFFICER_APPROVED" ]}
         : gmap string pyval) !! "doctorId".
Proof.
  apply (diploma_update_is_field_scoped cat_photo diploma_upload
           approved_doctor "mediconnect-doctors" (PStr "d1")).
  - reflexivity.
  - unfold diploma_attributes. cbn. intuition discriminate.
Defined.

Lemma update_failure_is_surfaced_witness :
  exists r passed,
    (invoke (lambda_handler
               {| textract_detect := Returns (lines ["Doctor of Medicine"]);
                  bigquery_insert := Returns true;
                  doctors_update := Fails "AccessDeniedException";
                  sns_publish := Returns tt |}
               (Some ("bucket", "uploads/doctors/d1/diploma.png")))
            empty_world).1 = Some r /\
    statusCode r = 200%Z /\
    field r "scan_passed" = Some (JBool passed) /\
    (forall w1 scan,
        scan_diploma (R := response)
          (Returns (lines ["Doctor of Medicine"]))
          "bucket" "uploads/doctors/d1/diploma.png" empty_world
        = (Normal scan, w1) -> result_passed scan = passed) /\
    field r "db_status"
    = Some (JStr ("DynamoDB Update Failed: " +:+ "AccessDeniedException")) /\
    tables (invoke (lambda_handler
                      {| textract_detect :=
                           Returns (lines ["Doctor of Medicine"]);
                         bigquery_insert := Returns true;
                         doctors_update := Fails "AccessDeniedException";
                         sns_publish := Returns tt |}
                      (Some ("bucket", "uploads/doctors/d1/diploma.png")))
                   empty_world).2
    = tables empty_world.
Proof.
  apply (update_failure_is_surfaced
           {| textract_detect := Returns (lines ["Doctor of Medicine"]);
              bigquery_insert := Returns true;
              doctors_update := Fails "AccessDeniedException";
              sns_publish := Returns tt |}
           "bucket" "uploads/doctors/d1/diploma.png"
           "AccessDeniedException" empty_world).
  reflexivity.
Defined.
End DocumentMore.

(* ===================================================================== *)
(** * More on the identity handler *)
(* ===================================================================== *)

Module IdentityMore.
Import PyText PyVal Base64 Runtime IdentityHandler.
Import Observe Scenario Wp WpRules More MoreScenario IdentityFacts.

(** ** Responses *)

(** X12. The identity handler always answers: with the CORS headers and
    one of the status codes 200, 400, 404 and 500. *)
Theorem identity_handler_statuses (e : env) (ev : event) (w : world) :
  exists r,
    (invoke (lambda_handler e ev) w).1 = Some r /\
    headers r = cors_headers /\
    In (statusCode r) [200; 400; 404; 500]%Z.
Proof.
  apply (wp_invoke _ (fun rw => exists r, rw.1 = Some r /\ _ /\ _)).
  unfold lambda_handler.
  identity_paths; cbn; eexists; repeat split; cbn; tauto.
Qed.

(** X13. A request other than the preflight whose body does not load as a
    JSON object, because [json.loads] raises or because it gives a value
    that is no dictionary, is answered 500 [Server Error: ...], not 400,
    and the world is untouched. *)
Theorem unreadable_body_is_server_error
        (e : env) (ev : event) (w : world) :
  httpMethod ev <> PStr "OPTIONS" ->
  (forall d, loaded ev <> Returns (JDict d)) ->
  exists msg,
    invoke (lambda_handler e ev) w
    = (Some (respond 500 (DumpsStr ("Server Error: " +:+ msg))), w).
Proof.
  intros Hm Hd.
  apply (wp_invoke _ (fun rw => exists msg, rw = (_, w))).
  unfold lambda_handler, parse_body.
  destruct (loaded ev) as [[d|ty]|msg] eqn:Hl; [now destruct (Hd d)| |];
    identity_paths; try unfeasible; eexists; reflexivity.
Qed.

Lemma unreadable_body_is_server_error_witness :
  exists msg,
    invoke (lambda_handler
              (identity_services (Returns [92.5%Q]) (Returns tt)) array_body)
           empty_world
    = (Some (respond 500 (DumpsStr ("Server Error: " +:+ msg))), empty_world).
Proof.
  apply (unreadable_body_is_server_error
           (identity_services (Returns [92.5%Q]) (Returns tt)) array_body
           empty_world).
  - discriminate.
  - discriminate.
Defined.

(** ** The ID card *)

(** X14. An accepted request brings an ID card that does not decode, or
    whose upload or tagging raises: the answer is 500
    [Failed to save ID card to S3.], the record store is untouched, and no
    comparison and no record update is issued. *)
Theorem id_card_failure_stops_the_run
        (e : env) (ev : event) (d : pydict) (selfie_bytes : list Z)
        (w : world) :
  accepted ev d selfie_bytes ->
  id_image_supplied d = true ->
  b64decode (get d "idImage") = None \/ returns (put_id_card e) = false \/
  returns (tag_id_card e) = false ->
  exists w',
    invoke (lambda_handler e ev) w
    = (Some (respond 500 (DumpsStr "Failed to save ID card to S3.")), w') /\
    tables w' = tables w /\
    forall entry, In entry (issued_by (lambda_handler e ev) w) ->
                  is_comparison (issued entry) = false /\
                  is_record_update (issued entry) = false.
Proof.
  intros (Hm & Hd & Hu & Hs & Hb) Hid Hfail.
  unfold issued_by.
  apply (wp_invoke _ (fun rw => exists w', rw = (_, w') /\ _ /\
           forall entry, In entry (drop _ (calls rw.2)) -> _)).
  unfold lambda_handler, parse_body. rewrite Hd.
  destruct Hfail as [Hfail | [Hfail | Hfail]];
    identity_paths; try unfeasible; simplify_eq; try discriminate Hfail.
  all: eexists; split; [reflexivity|]; split; [reflexivity|].
  all: cbn; rewrite <- ?app_assoc, ?drop_app_length, ?drop_all.
  all: intros entry Hin; repeat (destruct Hin as [<- | Hin]; [now split|]).
  all: destruct Hin.
Qed.

Lemma id_card_failure_stops_the_run_witness :
  exists w',
    invoke (lambda_handler
              (identity_env (Fails "AccessDenied") (Returns tt)
                 (Returns [92.5%Q]) (Returns tt) (Returns "u") (Returns tt))
              (post doctor_first_request)) empty_world
    = (Some (respond 500 (DumpsStr "Failed to save ID card to S3.")), w') /\
    tables w' = tables empty_world /\
    forall entry,
      In entry (issued_by
                  (lambda_handler
                     (identity_env (Fails "AccessDenied") (Returns tt)
                        (Returns [92.5%Q]) (Returns tt) (Returns "u")
                        (Returns tt))
                     (post doctor_first_request)) empty_world) ->
      is_comparison (issued entry) = false /\
      is_record_update (issued entry) = false.
Proof.
  apply (id_card_failure_stops_the_run
           (identity_env (Fails "AccessDenied") (Returns tt)
              (Returns [92.5%Q]) (Returns tt) (Returns "u") (Returns tt))
           (post doctor_first_request) doctor_first_request
           [105; 183; 29]%Z empty_world).
  - repeat split; try reflexivity. discriminate.
  - reflexivity.
  - right. left. reflexivity.
Defined.

(** X15. On an accepted request, the upload of the ID card goes through
    and its tagging raises: the answer is 500, and the card stays in the
    image store, without the [auto-delete] tag. *)
Theorem untagged_id_card_is_left_behind
        (e : env) (ev : event) (d : pydict) (selfie_bytes id_bytes : list Z)
        (w : world) (msg : string) :
  accepted ev d selfie_bytes ->
  id_image_supplied d = true ->
  b64decode (get d "idImage") = Some id_bytes ->
  put_id_card e = Returns tt ->
  tag_id_card e = Fails msg ->
  (invoke (lambda_handler e ev) w).1
  = Some (respond 500 (DumpsStr "Failed to save ID card to S3.")) /\
  objects (invoke (lambda_handler e ev) w).2
    !! (BUCKET_NAME, reference_key d)
  = Some {| Body := id_bytes; ContentType := "image/jpeg"; TagSet := [] |}.
Proof.
  intros (Hm & Hd & Hu & Hs & Hb) Hid Hdec Hput Htag.
  apply (wp_invoke _ (fun rw => rw.1 = _ /\ objects rw.2 !! _ = _)).
  unfold lambda_handler, parse_body, reference_key, role_of. rewrite Hd.
  identity_paths; try unfeasible; simplify_eq.
  all: split; [reflexivity|]; cbn; apply lookup_insert_eq.
Qed.

Lemma untagged_id_card_is_left_behind_witness :
  (invoke (lambda_handler
             (identity_env (Returns tt) (Fails "AccessDenied")
                (Returns [92.5%Q]) (Returns tt) (Returns "u") (Returns tt))
             (post doctor_first_request)) empty_world).1
  = Some (respond 500 (DumpsStr "Failed to save ID card to S3.")) /\
  objects (invoke (lambda_handler
                     (identity_env (Returns tt) (Fails "AccessDenied")
                        (Returns [92.5%Q]) (Returns tt) (Returns "u")
                        (Returns tt))
                     (post doctor_first_request)) empty_world).2
    !! (BUCKET_NAME, reference_key doctor_first_request)
  = Some {| Body := [105; 183; 29]%Z; ContentType := "image/jpeg";
            TagSet := [] |}.
Proof.
  apply (untagged_id_card_is_left_behind
           (identity_env (Returns tt) (Fails "AccessDenied")
              (Returns [92.5%Q]) (Returns tt) (Returns "u") (Returns tt))
           (post doctor_first_request) doctor_first_request
           [105; 183; 29]%Z [105; 183; 29]%Z empty_world "AccessDenied").
  - repeat split; try reflexivity. discriminate.
  - reflexivity.
  - reflexivity.
  - reflexivity.
  - reflexivity.
Defined.

Lemma append_inv_head (s t t' : string) : s +:+ t = s +:+ t' -> t = t'.
Proof.
  induction s as [|c s IH]; [exact id|].
  change (String c s +:+ t) with (String c (s +:+ t)).
  change (String c s +:+ t') with (String c (s +:+ t')).
  intros [= H]. now apply IH.
Qed.

Lemma selfie_key_is_not_id_card_key (user_role user_id : pyval) :
  selfie_key user_role user_id <> id_card_key user_role user_id.
Proof.
  unfold selfie_key, id_card_key. intros H.
  do 3 apply append_inv_head in H. discriminate H.
Qed.

(** X16. On an accepted request, the upload of the ID card and its tagging
    go through: whatever happens afterwards, the run ends with the card in
    the image store under the reference key, as [image/jpeg], with the one
    tag [auto-delete = true]. *)
Theorem id_card_is_tagged_for_deletion
        (e : env) (ev : event) (d : pydict) (selfie_bytes id_bytes : list Z)
        (w : world) :
  accepted ev d selfie_bytes ->
  id_image_supplied d = true ->
  b64decode (get d "idImage") = Some id_bytes ->
  put_id_card e = Returns tt ->
  tag_id_card e = Returns tt ->
  objects (invoke (lambda_handler e ev) w).2
    !! (BUCKET_NAME, reference_key d)
  = Some {| Body := id_bytes; ContentType := "image/jpeg";
            TagSet := [("auto-delete", "true")] |}.
Proof.
  intros (Hm & Hd & Hu & Hs & Hb) Hid Hdec Hput Htag.
  apply (wp_invoke _ (fun rw => objects rw.2 !! _ = _)).
  unfold lambda_handler, parse_body, reference_key, role_of. rewrite Hd.
  identity_paths; try unfeasible; simplify_eq.
  all: cbn in *.
  all: repeat match goal with
         | H : <[ _ := _ ]> _ !! _ = Some _ |- _ =>
             rewrite lookup_insert_eq in H; simplify_eq
         end.
  all: rewrite ?lookup_insert_eq; try reflexivity.
  all: rewrite lookup_insert_ne
         by (intros [= H]; now apply selfie_key_is_not_id_card_key in H).
  all: now rewrite lookup_insert_eq.
Qed.

Lemma id_card_is_tagged_for_deletion_witness :
  objects (invoke (lambda_handler
                     (identity_services (Returns [92.5%Q]) (Returns tt))
                     (post doctor_first_request)) empty_world).2
    !! (BUCKET_NAME, reference_key doctor_first_request)
  = Some {| Body := [105; 183; 29]%Z; ContentType := "image/jpeg";
            TagSet := [("auto-delete", "true")] |}.
Proof.
  apply (id_card_is_tagged_for_deletion
           (identity_services (Returns [92.5%Q]) (Returns tt))
           (post doctor_first_request) doctor_first_request
           [105; 183; 29]%Z [105; 183; 29]%Z empty_world).
  - repeat split; try reflexivity. discriminate.
  - reflexivity.
  - reflexivity.
  - reflexivity.
  - reflexivity.
Defined.

(** ** The comparison and what follows it *)

(** X17. On an accepted request, the comparison raises, the reference
    image being there: the answer is 200 with [verified] false, confidence 0, the message
    [Face comparison failed. Ensure images are clear.] and no photo URL;
    the record store is untouched and no record update is issued. *)
Theorem comparison_error_is_a_non_match
        (e : env) (ev : event) (d : pydict) (selfie_bytes : list Z)
        (w w1 : world) (o : s3_object) (msg : string) :
  accepted ev d selfie_bytes ->
  save_id_card e d (reference_key d) w = (Normal tt, w1) ->
  objects w1 !! (BUCKET_NAME, reference_key d) = Some o ->
  faces_compared e = Fails msg ->
  exists w',
    invoke (lambda_handler e ev) w
    = (Some (respond 200
               (DumpsObj
                  [("verified", JBool false);
                   ("confidence", JNum 0);
                   ("message",
                    JStr "Face comparison failed. Ensure images are clear.");
                   ("photoUrl", JNull)])), w') /\
    tables w' = tables w /\
    forall entry, In entry (issued_by (lambda_handler e ev) w) ->
                  is_record_update (issued entry) = false.
Proof.
  intros (Hm & Hd & Hu & Hs & Hb) Hsave Href Hfaces.
  destruct (save_id_card_effects _ _ _ _ _ _ Hsave) as (Ht & l & Hl & Hno).
  unfold issued_by.
  apply (wp_invoke _ (fun rw => exists w', rw = (_, w') /\ _ /\
           forall entry, In entry (drop _ (calls rw.2)) -> _)).
  unfold lambda_handler, parse_body, reference_key, role_of in *.
  rewrite Hd.
  repeat first
    [ eapply wp_known; [exact Hsave|]
    | wp_step
    | progress unfold decode, run_rekognition, update_database ];
    try unfeasible.
  simplify_eq. eexists. split; [reflexivity|]. split; [exact Ht|].
  cbn. rewrite Hl, <- app_assoc, drop_app_length.
  intros entry Hin. apply in_app_or in Hin as [Hin | [<- | []]].
  - rewrite List.Forall_forall in Hno. now apply Hno.
  - reflexivity.
Qed.

Lemma comparison_error_is_a_non_match_witness :
  exists w',
    invoke (lambda_handler
              (identity_services (Fails "ThrottlingException") (Returns tt))
              (post doctor_request)) approved_doctor_with_id
    = (Some (respond 200
               (DumpsObj
                  [("verified", JBool false);
                   ("confidence", JNum 0);
                   ("message",
                    JStr "Face comparison failed. Ensure images are clear.");
                   ("photoUrl", JNull)])), w') /\
    tables w' = tables approved_doctor_with_id /\
    forall entry,
      In entry (issued_by
                  (lambda_handler
                     (identity_services (Fails "ThrottlingException")
                        (Returns tt))
                     (post doctor_request)) approved_doctor_with_id) ->
      is_record_update (issued entry) = false.
Proof.
  apply (comparison_error_is_a_non_match
           (identity_services (Fails "ThrottlingException") (Returns tt))
           (post doctor_request) doctor_request [105; 183; 29]%Z
           approved_doctor_with_id approved_doctor_with_id
           {| Body := [105; 183; 29]%Z; ContentType := "image/jpeg";
              TagSet := [("auto-delete", "true")] |}
           "ThrottlingException").
  - repeat split; try reflexivity. discriminate.
  - reflexivity.
  - reflexivity.
  - reflexivity.
Defined.

(** X18. On an accepted request, the faces match, and the upload of the
    selfie or the signing of its URL raises: the answer is 500 [Server Error: ...] with the error,
    nothing of the match is reported, the record store is untouched and no
    record update is issued. *)
Theorem selfie_store_failure_is_server_error
        (e : env) (ev : event) (d : pydict) (selfie_bytes : list Z)
        (w w1 : world) (o : s3_object) (sims rest : list Q) (s : Q)
        (msg : string) :
  accepted ev d selfie_bytes ->
  save_id_card e d (reference_key d) w = (Normal tt, w1) ->
  objects w1 !! (BUCKET_NAME, reference_key d) = Some o ->
  faces_compared e = Returns sims ->
  List.filter (fun x => Qle_bool 80 x) sims = s :: rest ->
  put_selfie e = Fails msg \/
  (put_selfie e = Returns tt /\ presigned_url e = Fails msg) ->
  exists w',
    invoke (lambda_handler e ev) w
    = (Some (respond 500 (DumpsStr ("Server Error: " +:+ msg))), w') /\
    tables w' = tables w /\
    forall entry, In entry (issued_by (lambda_handler e ev) w) ->
                  is_record_update (issued entry) = false.
Proof.
  intros (Hm & Hd & Hu & Hs & Hb) Hsave Href Hfaces Hf Hfail.
  destruct (save_id_card_effects _ _ _ _ _ _ Hsave) as (Ht & l & Hl & Hno).
  rewrite List.Forall_forall in Hno.
  unfold issued_by.
  apply (wp_invoke _ (fun rw => exists w', rw = (_, w') /\ _ /\
           forall entry, In entry (drop _ (calls rw.2)) -> _)).
  unfold lambda_handler, parse_body, reference_key, role_of in *.
  rewrite Hd.
  destruct Hfail as [Hfail | [Hput Hfail]];
  repeat first
    [ eapply wp_known; [exact Hsave|]
    | wp_step
    | progress unfold decode, run_rekognition, update_database ];
    try unfeasible.
  all: simplify_eq.
  all: try match goal with
           | H : map Build_face_match _ = [] |- _ =>
               rewrite Hf in H; discriminate H
           end.
  all: eexists; split; [reflexivity|]; split; [exact Ht|].
  all: cbn; rewrite Hl, <- ?app_assoc, drop_app_length.
  all: intros entry Hin; apply in_app_or in Hin as [Hin | Hin];
    [now apply Hno|].
  all: repeat (destruct Hin as [<- | Hin]; [reflexivity|]).
  all: destruct Hin.
Qed.

Lemma selfie_store_failure_is_server_error_witness :
  exists w',
    invoke (lambda_handler
              (identity_env (Returns tt) (Returns tt) (Returns [92.5%Q])
                 (Fails "SlowDown") (Returns "u") (Returns tt))
              (post doctor_request)) approved_doctor_with_id
    = (Some (respond 500 (DumpsStr ("Server Error: " +:+ "SlowDown"))), w') /\
    tables w' = tables approved_doctor_with_id /\
    forall entry,
      In entry (issued_by
                  (lambda_handler
                     (identity_env (Returns tt) (Returns tt)
                        (Returns [92.5%Q]) (Fails "SlowDown") (Returns "u")
                        (Returns tt))
                     (post doctor_request)) approved_doctor_with_id) ->
      is_record_update (issued entry) = false.
Proof.
  apply (selfie_store_failure_is_server_error
           (identity_env (Returns tt) (Returns tt) (Returns [92.5%Q])
              (Fails "SlowDown") (Returns "u") (Returns tt))
           (post doctor_request) doctor_request [105; 183; 29]%Z
           approved_doctor_with_id approved_doctor_with_id
           {| Body := [105; 183; 29]%Z; ContentType := "image/jpeg";
              TagSet := [("auto-delete", "true")] |}
           [92.5%Q] [] 92.5%Q "SlowDown").
  - repeat split; try reflexivity. discriminate.
  - reflexivity.
  - reflexivity.
  - reflexivity.
  - reflexivity.
  - left. reflexivity.
Defined.

(** X19. A record update is the last call of its run, and the only record
    update; it directly follows a comparison, an upload of the selfie and
    the signing of its URL, all three of which returned. *)
Theorem record_update_comes_last
        (e : env) (ev : event) (w : world) (entry : logged) :
  In entry (issued_by (lambda_handler e ev) w) ->
  is_record_update (issued entry) = true ->
  exists before reference selfie target,
    issued_by (lambda_handler e ev) w =
    before ++
    [ {| issued := RekognitionCompareFaces BUCKET_NAME reference target 80;
         returned := true |};
      {| issued := S3PutObject BUCKET_NAME selfie target "image/jpeg";
         returned := true |};
      {| issued := S3GeneratePresignedUrl BUCKET_NAME selfie 3600;
         returned := true |};
      entry ] /\
    Forall (fun en => is_record_update (issued en) = false) before.
Proof.
  unfold issued_by.
  apply (wp_invoke _ (fun rw => In entry (drop _ (calls rw.2)) -> _ ->
           exists before reference selfie target,
             drop _ (calls rw.2) = _ /\ _)).
  unfold lambda_handler.
  identity_paths; cbn; rewrite <- ?app_assoc, ?drop_app_length, ?drop_all;
    intros Hin Hup.
  all: repeat (destruct Hin as [<- | Hin]; [try discriminate Hup|]).
  all: try destruct Hin.
  all: first [ eexists [], _, _, _; split; [reflexivity | constructor]
             | eexists [_; _], _, _, _; split;
               [reflexivity | repeat constructor] ].
Qed.

Lemma record_update_comes_last_witness :
  exists before reference selfie target,
    issued_by (lambda_handler
                 (identity_services (Returns [92.5%Q]) (Returns tt))
                 (post doctor_request)) approved_doctor_with_id =
    before ++
    [ {| issued := RekognitionCompareFaces BUCKET_NAME reference target 80;
         returned := true |};
      {| issued := S3PutObject BUCKET_NAME selfie target "image/jpeg";
         returned := true |};
      {| issued := S3GeneratePresignedUrl BUCKET_NAME selfie 3600;
         returned := true |};
      {| issued := DynamoUpdateItem "mediconnect-doctors" "doctorId"
                     (PStr "d1")
                     (identity_update (PStr "doctor") (PStr "d1"));
         returned := true |} ] /\
    Forall (fun en => is_record_update (issued en) = false) before.
Proof.
  apply (record_update_comes_last
           (identity_services (Returns [92.5%Q]) (Returns tt))
           (post doctor_request) approved_doctor_with_id
           {| issued := DynamoUpdateItem "mediconnect-doctors" "doctorId"
                          (PStr "d1")
                          (identity_update (PStr "doctor") (PStr "d1"));
              returned := true |}).
  - vm_compute. tauto.
  - reflexivity.
Defined.

(** ** The record update *)

(** The second of two runs that share their branches: what the first run
    settled is rewritten, not split again. *)
Ltac replay_step :=
  lazymatch goal with
  | |- wp (if ?c then _ else _) _ _ =>
      match goal with H : c = _ |- _ => rewrite H end
  | |- wp (match ?x with _ => _ end) _ _ =>
      match goal with H : x = _ |- _ => rewrite H end
  | |- match ?x with _ => _ end =>
      match goal with H : x = _ |- _ => rewrite H end
  end; cbn beta iota.

Ltac replay :=
  repeat first
    [ replay_step
    | wp_step
    | progress unfold parse_body, decode, save_id_card, run_rekognition,
        update_database ].

(** X20. The response of the identity handler does not depend on the
    outcome of the record update: for every request and every behaviour of
    the other services, two runs that differ only in that outcome answer
    alike. *)
Theorem response_ignores_update_outcome
        (e : env) (r1 r2 : call_result unit) (ev : event) (w : world) :
  (invoke (lambda_handler (with_profile_update r1 e) ev) w).1
  = (invoke (lambda_handler (with_profile_update r2 e) ev) w).1.
Proof.
  destruct e as [pid tid faces psel url upd]. unfold with_profile_update.
  cbn [put_id_card tag_id_card faces_compared put_selfie presigned_url
       profile_update].
  apply (wp_invoke _ (fun rw => rw.1 = _)).
  unfold lambda_handler.
  identity_paths.
  all: cbn [put_id_card tag_id_card faces_compared put_selfie presigned_url
            profile_update fst snd] in *.
  all: symmetry; apply (wp_invoke _ (fun rw => rw.1 = _)).
  all: unfold lambda_handler.
  all: cbn [put_id_card tag_id_card faces_compared put_selfie presigned_url
            profile_update].
  all: replay.
  all: try reflexivity.
  all: try unfeasible.
  all: simplify_eq.
  all: try reflexivity.
Qed.

(** X21. A run of the identity handler keeps every record that exists,
    and on it every attribute other than the three its update assigns. *)
Theorem identity_update_is_field_scoped
        (e : env) (ev : event) (w : world) (table : string) (key : pyval)
        (item : gmap string pyval) (attr : string) :
  tables w !! (table, key) = Some item ->
  ~ In attr identity_attributes ->
  exists item',
    tables (invoke (lambda_handler e ev) w).2 !! (table, key) = Some item' /\
    item' !! attr = item !! attr.
Proof.
  intros Hitem Hattr.
  destruct (identity_tables e ev w) as [-> | (d & r & _ & _ & ->)];
    [now exists item|].
  destruct (decide ((table_name (role_of d), get d "userId") = (table, key)))
    as [Heq | Hne].
  - rewrite Heq, lookup_insert_eq, Hitem. eexists. split; [reflexivity|].
    cbn [from_option id].
    rewrite DocumentMore.lookup_apply_assignments.
    now rewrite DocumentMore.last_assigned_none.
  - rewrite lookup_insert_ne by exact Hne. now exists item.
Qed.

Lemma identity_update_is_field_scoped_witness :
  exists item',
    tables (invoke (lambda_handler
                      (identity_services (Returns [92.5%Q]) (Returns tt))
                      (post doctor_request)) approved_doctor_with_id).2
      !! ("mediconnect-doctors", PStr "d1") = Some item' /\
    item' !! "doctorId"
    = ({[ "doctorId" := PStr "d1";
          "verificationStatus" := PStr "OFFICER_APPROVED" ]}
         : gmap string pyval) !! "doctorId".
Proof.
  apply (identity_update_is_field_scoped
           (identity_services (Returns [92.5%Q]) (Returns tt))
           (post doctor_request) approved_doctor_with_id
           "mediconnect-doctors" (PStr "d1")).
  - reflexivity.
  - unfold identity_attributes. cbn. intuition discriminate.
Defined.

(** The record store after a run in which every service works and the
    request brings its own ID image. *)
Lemma verified_run_tables
      (e : env) (ev : event) (d : pydict) (selfie_bytes id_bytes : list Z)
      (sims rest : list Q) (s : Q) (url : string) (w : world) :
  accepted ev d selfie_bytes ->
  id_image_supplied d = true ->
  b64decode (get d "idImage") = Some id_bytes ->
  put_id_card e = Returns tt -> tag_id_card e = Returns tt ->
  faces_compared e = Returns sims ->
  List.filter (fun x => Qle_bool 80 x) sims = s :: rest ->
  put_selfie e = Returns tt -> presigned_url e = Returns url ->
  profile_update e = Returns tt ->
  tables (invoke (lambda_handler e ev) w).2
  = <[(table_name (role_of d), get d "userId") :=
        apply_assignments
          (identity_update (role_of d) (get d "userId"))
          (default {[ id_key_field (role_of d) := get d "userId" ]}
                   (tables w !! (table_name (role_of d),
                                 get d "userId")))]> (tables w).
Proof.
  intros (Hm & Hd & Hu & Hs & Hb) Hid Hdec Hput Htag Hfaces Hf Hsel Hurl Hupd.
  apply (wp_invoke _ (fun rw => tables rw.2 = _)).
  unfold lambda_handler, parse_body, role_of. rewrite Hd.
  identity_paths; try unfeasible; simplify_eq.
  all: try match goal with
           | H : map Build_face_match _ = [] |- _ =>
               rewrite Hf in H; discriminate H
           end.
  all: reflexivity.
Qed.

Lemma verified_needs_a_match_witness :
  exists sims s,
    faces_compared (identity_services (Returns [92.5%Q]) (Returns tt))
    = Returns sims /\ In s sims /\ (80 <= s)%Q.
Proof.
  apply (verified_needs_a_match
           (identity_services (Returns [92.5%Q]) (Returns tt))
           (post patient_request) empty_world
           (respond 200
              (DumpsObj
                 [("verified", JBool true);
                  ("confidence", JNum 92.5);
                  ("message", JStr "Identity Verified. Confidence: 92.50%");
                  ("photoUrl", JStr "https://signed.example/selfie")]))).
  - reflexivity.
  - reflexivity.
Defined.
End IdentityMore.

(* ===================================================================== *)
(** * The two handlers on one doctor *)
(* ===================================================================== *)

Module Composition.
Import PyText PyVal Base64 Runtime DiplomaScanner.
Import Observe Scenario More MoreScenario.

Lemma diploma_assigns (passed : bool) (bucket key attr : string) :
  last_assigned (DocumentHandler.diploma_update passed bucket key) attr
  = if String.eqb "verificationStatus" attr
    then Some (PStr (if passed then "PENDING_REVIEW" else "REJECTED_AUTO"))
    else if String.eqb "diplomaUrl" attr
         then Some (PStr ("s3://" +:+ bucket +:+ "/" +:+ key))
         else if String.eqb "isDiplomaAutoVerified" attr
              then Some (PBool passed) else None.
Proof.
  unfold DocumentHandler.diploma_update. cbn [last_assigned].
  destruct (String.eqb "verificationStatus" attr); [reflexivity|].
  destruct (String.eqb "diplomaUrl" attr); reflexivity.
Qed.

Lemma identity_assigns (user_role user_id : pyval) (attr : string) :
  last_assigned (IdentityHandler.identity_update user_role user_id) attr
  = if String.eqb "verificationStatus" attr
    then Some (PStr (if bool_decide (user_role = PStr "doctor")
                     then "PENDING_REVIEW" else "VERIFIED"))
    else if String.eqb "isIdentityVerified" attr then Some (PBool true)
         else if String.eqb "avatar" attr
              then Some (PStr (IdentityHandler.selfie_key user_role user_id))
              else None.
Proof.
  unfold IdentityHandler.identity_update. cbn [last_assigned].
  destruct (String.eqb "verificationStatus" attr); [reflexivity|].
  destruct (String.eqb "isIdentityVerified" attr); reflexivity.
Qed.

(** X22. The two handlers on the same doctor, each with a record update
    that goes through. Both orders leave both verification flags set as
    the runs decided them; [verificationStatus] is the one of the later
    run. So a rejected diploma followed by a verified identity ends as
    [PENDING_REVIEW], and the other order ends as [REJECTED_AUTO]. *)
Theorem later_run_decides_status
        (de : DocumentHandler.env) (bucket key doctor : string)
        (ie : IdentityHandler.env) (iev : IdentityHandler.event)
        (d : pydict) (selfie_bytes id_bytes : list Z)
        (sims rest : list Q) (s : Q) (url : string) (w : world) :
  DocumentHandler.doctor_id_of_key key = doctor ->
  DocumentHandler.doctors_update de = Returns tt ->
  accepted iev d selfie_bytes ->
  role_of d = PStr "doctor" ->
  get d "userId" = PStr doctor ->
  IdentityHandler.id_image_supplied d = true ->
  b64decode (get d "idImage") = Some id_bytes ->
  IdentityHandler.put_id_card ie = Returns tt ->
  IdentityHandler.tag_id_card ie = Returns tt ->
  IdentityHandler.faces_compared ie = Returns sims ->
  List.filter (fun x => Qle_bool 80 x) sims = s :: rest ->
  IdentityHandler.put_selfie ie = Returns tt ->
  IdentityHandler.presigned_url ie = Returns url ->
  IdentityHandler.profile_update ie = Returns tt ->
  (exists item,
      tables (invoke (IdentityHandler.lambda_handler ie iev)
                (invoke (DocumentHandler.lambda_handler de
                           (Some (bucket, key))) w).2).2
        !! ("mediconnect-doctors", PStr doctor) = Some item /\
      item !! "verificationStatus" = Some (PStr "PENDING_REVIEW") /\
      item !! "isDiplomaAutoVerified"
      = Some (PBool (result_passed
                       (scan_outcome (DocumentHandler.textract_detect de)))) /\
      item !! "isIdentityVerified" = Some (PBool true)) /\
  (exists item,
      tables (invoke (DocumentHandler.lambda_handler de (Some (bucket, key)))
                (invoke (IdentityHandler.lambda_handler ie iev) w).2).2
        !! ("mediconnect-doctors", PStr doctor) = Some item /\
      item !! "verificationStatus"
      = Some (PStr (if result_passed
                         (scan_outcome (DocumentHandler.textract_detect de))
                    then "PENDING_REVIEW" else "REJECTED_AUTO")) /\
      item !! "isDiplomaAutoVerified"
      = Some (PBool (result_passed
                       (scan_outcome (DocumentHandler.textract_detect de)))) /\
      item !! "isIdentityVerified" = Some (PBool true)).
Proof.
  intros Hid Hupd Hacc Hrole Huid Hsup Hdec Hput Htag Hfaces Hf Hsel Hurl
         Hprof.
  split.
  - rewrite (IdentityMore.verified_run_tables ie iev d selfie_bytes id_bytes
               sims rest s url _ Hacc Hsup Hdec Hput Htag Hfaces Hf Hsel Hurl
               Hprof).
    rewrite Hrole, Huid.
    change (IdentityHandler.table_name (PStr "doctor"))
      with "mediconnect-doctors".
    rewrite lookup_insert_eq. eexists. split; [reflexivity|].
    rewrite DocumentMore.document_run_tables, Hupd. cbn [returns].
    rewrite Hid. change DocumentHandler.TABLE_NAME with "mediconnect-doctors".
    rewrite lookup_insert_eq. cbn [from_option id].
    rewrite !DocumentMore.lookup_apply_assignments.
    rewrite !identity_assigns, !diploma_assigns. repeat split.
  - rewrite DocumentMore.document_run_tables, Hupd. cbn [returns].
    rewrite Hid. change DocumentHandler.TABLE_NAME with "mediconnect-doctors".
    rewrite lookup_insert_eq. eexists. split; [reflexivity|].
    rewrite (IdentityMore.verified_run_tables ie iev d selfie_bytes id_bytes
               sims rest s url _ Hacc Hsup Hdec Hput Htag Hfaces Hf Hsel Hurl
               Hprof).
    rewrite Hrole, Huid.
    change (IdentityHandler.table_name (PStr "doctor"))
      with "mediconnect-doctors".
    rewrite lookup_insert_eq. cbn [from_option id].
    rewrite !DocumentMore.lookup_apply_assignments.
    rewrite !identity_assigns, !diploma_assigns. repeat split.
Qed.

Lemma later_run_decides_status_witness :
  (exists item,
      tables (invoke (IdentityHandler.lambda_handler
                        (identity_services (Returns [92.5%Q]) (Returns tt))
                        (post doctor_first_request))
                (invoke (DocumentHandler.lambda_handler cat_photo
                           (Some ("bucket",
                                  "uploads/doctors/d1/diploma.png")))
                        empty_world).2).2
        !! ("mediconnect-doctors", PStr "d1") = Some item /\
      item !! "verificationStatus" = Some (PStr "PENDING_REVIEW") /\
      item !! "isDiplomaAutoVerified"
      = Some (PBool (result_passed
                       (scan_outcome
                          (DocumentHandler.textract_detect cat_photo)))) /\
      item !! "isIdentityVerified" = Some (PBool true)) /\
  (exists item,
      tables (invoke (DocumentHandler.lambda_handler cat_photo
                        (Some ("bucket", "uploads/doctors/d1/diploma.png")))
                (invoke (IdentityHandler.lambda_handler
                           (identity_services (Returns [92.5%Q]) (Returns tt))
                           (post doctor_first_request))
                        empty_world).2).2
        !! ("mediconnect-doctors", PStr "d1") = Some item /\
      item !! "verificationStatus"
      = Some (PStr (if result_passed
                         (scan_outcome
                            (DocumentHandler.textract_detect cat_photo))
                    then "PENDING_REVIEW" else "REJECTED_AUTO")) /\
      item !! "isDiplomaAutoVerified"
      = Some (PBool (result_passed
                       (scan_outcome
                          (DocumentHandler.textract_detect cat_photo)))) /\
      item !! "isIdentityVerified" = Some (PBool true)).
Proof.
  apply (later_run_decides_status cat_photo "bucket"
           "uploads/doctors/d1/diploma.png" "d1"
           (identity_services (Returns [92.5%Q]) (Returns tt))
           (post doctor_first_request) doctor_first_request
           [105; 183; 29]%Z [105; 183; 29]%Z [92.5%Q] [] 92.5%Q
           "https://signed.example/selfie" empty_world);
    try reflexivity.
  repeat split; try reflexivity. discriminate.
Defined.
End Composition.

(* ===================================================================== *)
(** * What the handlers inherit from [base64.b64decode] *)
(* ===================================================================== *)

Module DecodingMore.
Import PyText PyVal Base64 Runtime IdentityHandler.
Import Observe Scenario Wp WpRules More MoreScenario IdentityFacts.

Lemma a2b_loop_skips (data : list ascii) (quad_pos leftchar pads : Z)
      (out : list Z) :
  a2b_loop (List.filter significant data) quad_pos leftchar pads out
  = a2b_loop data quad_pos leftchar pads out.
Proof.
  revert quad_pos leftchar pads out.
  induction data as [|c data IH]; intros quad_pos leftchar pads out;
    [reflexivity|].
  cbn [List.filter]. unfold significant at 1.
  destruct (is_pad c) eqn:Hpad; cbn [orb].
  - cbn [a2b_loop]. rewrite Hpad.
    destruct (2 <=? quad_pos)%Z; [|apply IH].
    destruct (4 <=? quad_pos + (pads + 1))%Z; [reflexivity | apply IH].
  - destruct (sextet c) as [v|] eqn:Hv.
    + cbn [a2b_loop]. rewrite Hpad, Hv.
      repeat match goal with
             | |- context [if ?b then _ else _] => destruct b
             end; apply IH.
    + cbn [a2b_loop]. rewrite Hpad, Hv. apply IH.
Qed.

Lemma is_ascii_strip (s : string) : is_ascii s = true -> is_ascii (strip s) = true.
Proof.
  unfold is_ascii, strip. rewrite list_ascii_of_string_of_list_ascii.
  rewrite !forallb_forall. intros H c Hin.
  apply filter_In in Hin as [Hin _]. now apply H.
Qed.

Lemma decoding_skips_foreign_characters (s : string) :
  is_ascii s = true ->
  b64decode (PStr (strip s)) = b64decode (PStr s).
Proof.
  intros H. unfold b64decode. rewrite H, (is_ascii_strip s H).
  unfold a2b_base64, strip. rewrite list_ascii_of_string_of_list_ascii.
  apply a2b_loop_skips.
Qed.


Lemma land_255_range (x : Z) : (0 <= Z.land x 255 < 256)%Z.
Proof.
  change 255%Z with (Z.ones 8). rewrite Z.land_ones by lia.
  apply Z.mod_pos_bound. reflexivity.
Qed.

Lemma a2b_loop_bytes (data : list ascii) (quad_pos leftchar pads : Z)
      (out bytes : list Z) :
  Forall (fun b => (0 <= b < 256)%Z) out ->
  a2b_loop data quad_pos leftchar pads out = Some bytes ->
  Forall (fun b => (0 <= b < 256)%Z) bytes.
Proof.
  revert quad_pos leftchar pads out.
  induction data as [|c data IH]; intros quad_pos leftchar pads out Hout;
    cbn [a2b_loop].
  - destruct (quad_pos =? 0)%Z; [now intros [= <-] | discriminate].
  - assert (Hsnoc : forall x, Forall (fun b => (0 <= b < 256)%Z)
                                     (out ++ [Z.land x 255])).
    { intros x. apply Forall_app. split; [exact Hout|].
      constructor; [apply land_255_range | constructor]. }
    repeat match goal with
           | |- context [if ?b then _ else _] => destruct b
           | |- context [match sextet c with _ => _ end] => destruct (sextet c)
           end;
      first [ now intros [= <-] | now apply IH ].
Qed.

Lemma decoded_bytes_are_octets (v : pyval) (bytes : list Z) :
  b64decode v = Some bytes -> Forall (fun b => (0 <= b < 256)%Z) bytes.
Proof.
  unfold b64decode, a2b_base64. destruct v; try discriminate.
  destruct (is_ascii s); [|discriminate].
  apply a2b_loop_bytes. constructor.
Qed.


Lemma sextet_is_plain (c : ascii) (v : Z) :
  sextet c = Some v -> is_pad c = false /\ (ord c <? 128)%N = true.
Proof.
  destruct c as [[] [] [] [] [] [] [] []]; intros H;
    first [discriminate H | split; reflexivity].
Qed.

Lemma a2b_loop_alphabet (data : list ascii) (quad_pos leftchar pads : Z)
      (out : list Z) :
  forallb (fun c => match sextet c with Some _ => true | None => false end)
          data = true ->
  (0 <= quad_pos < 4)%Z ->
  a2b_loop data quad_pos leftchar pads out = None <->
  ((quad_pos + Z.of_nat (length data)) mod 4 <> 0)%Z.
Proof.
  revert quad_pos leftchar pads out.
  induction data as [|c data IH]; intros quad_pos leftchar pads out Hall Hq.
  - cbn [a2b_loop length]. rewrite Z.add_0_r, Z.mod_small by lia.
    destruct (Z.eqb_spec quad_pos 0); split; intros H;
      first [discriminate H | contradiction | reflexivity | assumption].
  - cbn [forallb] in Hall. apply andb_true_iff in Hall as [Hc Hall].
    destruct (sextet c) as [v|] eqn:Hv; [|discriminate Hc].
    destruct (sextet_is_plain c v Hv) as [Hpad _].
    cbn [a2b_loop length]. rewrite Hpad, Hv.
    replace (quad_pos + Z.of_nat (S (length data)))%Z
      with ((quad_pos + 1) + Z.of_nat (length data))%Z by lia.
    destruct (Z.eqb_spec quad_pos 0) as [-> | H0];
      [rewrite IH by (assumption || lia); reflexivity|].
    destruct (Z.eqb_spec quad_pos 1) as [-> | H1];
      [rewrite IH by (assumption || lia); reflexivity|].
    destruct (Z.eqb_spec quad_pos 2) as [-> | H2];
      [rewrite IH by (assumption || lia); reflexivity|].
    assert (quad_pos = 3%Z) as -> by lia.
    rewrite IH by (assumption || lia).
    replace (3 + 1 + Z.of_nat (length data))%Z
      with (0 + Z.of_nat (length data) + 1 * 4)%Z by lia.
    now rewrite Z.mod_add by lia.
Qed.

Lemma alphabet_only_is_ascii (s : string) :
  alphabet_only s = true -> is_ascii s = true.
Proof.
  unfold alphabet_only, is_ascii. rewrite !forallb_forall.
  intros H c Hin. specialize (H c Hin).
  destruct (sextet c) as [v|] eqn:Hv; [|discriminate H].
  now destruct (sextet_is_plain c v Hv).
Qed.

(** X23. A selfie written in the base64 alphabet alone, without padding,
    whose length is no multiple of four, is answered 400
    [Invalid Selfie Base64], and the world is untouched. *)
Theorem unpadded_selfie_is_rejected
        (e : env) (ev : event) (d : pydict) (s : string) (w : world) :
  httpMethod ev <> PStr "OPTIONS" ->
  loaded ev = Returns (JDict d) ->
  truthy (get d "userId") = true ->
  lookup_key d "selfieImage" = Some (PStr s) ->
  alphabet_only s = true ->
  (Z.of_nat (String.length s) mod 4 <> 0)%Z ->
  invoke (lambda_handler e ev) w
  = (Some (respond 400 (DumpsStr "Invalid Selfie Base64")), w).
Proof.
  intros Hm Hd Hu Hs Halpha Hlen.
  assert (Hget : get d "selfieImage" = PStr s)
    by (unfold get, get_default; now rewrite Hs).
  assert (Hkey : has_key d "selfieImage" = true)
    by (unfold has_key; now rewrite Hs).
  assert (Hdec : b64decode (PStr s) = None).
  { unfold b64decode. rewrite (alphabet_only_is_ascii s Halpha).
    unfold a2b_base64. apply a2b_loop_alphabet; [exact Halpha | lia |].
    rewrite Z.add_0_l.
    replace (length (list_ascii_of_string s)) with (String.length s);
      [exact Hlen|].
    clear. induction s; cbn; congruence. }
  apply (wp_invoke _ (fun rw => rw = _)).
  unfold lambda_handler, parse_body. rewrite Hd.
  identity_paths; try unfeasible; try reflexivity.
  all: rewrite Hget in *; congruence.
Qed.

Lemma unpadded_selfie_is_rejected_witness :
  invoke (lambda_handler (identity_services (Returns [92.5%Q]) (Returns tt))
            (post [("userId", PStr "p1"); ("selfieImage", PStr "abcde")]))
         empty_world
  = (Some (respond 400 (DumpsStr "Invalid Selfie Base64")), empty_world).
Proof.
  apply (unpadded_selfie_is_rejected
           (identity_services (Returns [92.5%Q]) (Returns tt))
           (post [("userId", PStr "p1"); ("selfieImage", PStr "abcde")])
           [("userId", PStr "p1"); ("selfieImage", PStr "abcde")]
           "abcde" empty_world);
    first [reflexivity | discriminate].
Defined.
(** X24. Every image the identity handler sends out, to the image store
    or as the target of the comparison, is a sequence of bytes. *)
Theorem images_sent_are_octets
        (e : env) (ev : event) (w : world) (entry : logged) :
  In entry (issued_by (lambda_handler e ev) w) ->
  match issued entry with
  | S3PutObject _ _ body _ => octets body
  | RekognitionCompareFaces _ _ target _ => octets target
  | _ => True
  end.
Proof.
  unfold issued_by.
  apply (wp_invoke _ (fun rw => In entry (drop _ (calls rw.2)) -> _)).
  unfold lambda_handler.
  identity_paths; cbn; rewrite <- ?app_assoc, ?drop_app_length, ?drop_all;
    intros Hin.
  all: repeat (destruct Hin as [<- | Hin];
               [cbn;
                first [ exact I
                      | eapply decoded_bytes_are_octets;
                        eassumption ]|]).
  all: try destruct Hin.
Qed.

Lemma images_sent_are_octets_witness : octets [105; 183; 29]%Z.
Proof.
  apply (images_sent_are_octets
           (identity_services (Returns [92.5%Q]) (Returns tt))
           (post doctor_first_request) empty_world
           {| issued := S3PutObject BUCKET_NAME "doctor/d1/id_card.jpg"
                          [105; 183; 29]%Z "image/jpeg";
              returned := true |}).
  vm_compute. tauto.
Defined.

(** X25. Characters outside the base64 alphabet do not invalidate a
    selfie: when the text without them decodes, the request is not
    answered [Invalid Selfie Base64], and a comparison, if one is issued,
    has exactly those decoded bytes as its target image. *)
Theorem selfie_is_decoded_leniently
        (e : env) (ev : event) (d : pydict) (s : string) (bytes : list Z)
        (w : world) :
  httpMethod ev <> PStr "OPTIONS" ->
  loaded ev = Returns (JDict d) ->
  truthy (get d "userId") = true ->
  lookup_key d "selfieImage" = Some (PStr s) ->
  is_ascii s = true ->
  b64decode (PStr (strip s)) = Some bytes ->
  (invoke (lambda_handler e ev) w).1
  <> Some (respond 400 (DumpsStr "Invalid Selfie Base64")) /\
  forall entry bucket name target threshold,
    In entry (issued_by (lambda_handler e ev) w) ->
    issued entry = RekognitionCompareFaces bucket name target threshold ->
    target = bytes.
Proof.
  intros Hm Hd Hu Hs Hascii Hdec.
  rewrite decoding_skips_foreign_characters in Hdec
    by exact Hascii.
  assert (Hget : get d "selfieImage" = PStr s)
    by (unfold get, get_default; now rewrite Hs).
  assert (Hkey : has_key d "selfieImage" = true)
    by (unfold has_key; now rewrite Hs).
  rewrite <- Hget in Hdec.
  unfold issued_by.
  apply (wp_invoke _ (fun rw => rw.1 <> _ /\
           forall entry bucket name target threshold,
             In entry (drop _ (calls rw.2)) -> _)).
  unfold lambda_handler, parse_body. rewrite Hd.
  identity_paths; try unfeasible; simplify_eq.
  all: cbn; rewrite <- ?app_assoc, ?drop_app_length, ?drop_all.
  all: split; [discriminate|].
  all: intros entry bucket name target threshold Hin Heq.
  all: repeat (destruct Hin as [<- | Hin];
               [cbn in Heq; try discriminate Heq; now injection Heq|]).
  all: try destruct Hin.
Qed.

Lemma selfie_is_decoded_leniently_witness :
  (invoke (lambda_handler (identity_services (Returns [92.5%Q]) (Returns tt))
             (post [("userId", PStr "p1"); ("selfieImage", PStr "ab cd")]))
          empty_world).1
  <> Some (respond 400 (DumpsStr "Invalid Selfie Base64")) /\
  forall entry bucket name target threshold,
    In entry (issued_by
                (lambda_handler
                   (identity_services (Returns [92.5%Q]) (Returns tt))
                   (post [("userId", PStr "p1");
                          ("selfieImage", PStr "ab cd")]))
                empty_world) ->
    issued entry = RekognitionCompareFaces bucket name target threshold ->
    target = [105; 183; 29]%Z.
Proof.
  apply (selfie_is_decoded_leniently
           (identity_services (Returns [92.5%Q]) (Returns tt))
           (post [("userId", PStr "p1"); ("selfieImage", PStr "ab cd")])
           [("userId", PStr "p1"); ("selfieImage", PStr "ab cd")]
           "ab cd" [105; 183; 29]%Z empty_world);
    first [reflexivity | discriminate].
Defined.
End DecodingMore.

(* ===================================================================== *)
(** * The analytics row *)
(* ===================================================================== *)

Module AnalyticsMore.
Import PyVal Runtime GcpBigQuery MoreScenario.

(** X26. [record_doctor_event] returns true exactly when the secret has a
    string that loads as a non-empty object with a [project_id], the
    credentials and the client are built, and the insert reports no
    error. Every failure on the way gives false. *)
Theorem event_is_recorded_iff_all_steps_work
        (e : env) (doctor event status_ : string) :
  (record_doctor_event e doctor event status_).1 = true <->
  exists secret_string d project,
    get_secret_value e = Returns (Some secret_string) /\
    json_loads e secret_string = Returns (SecretObject d) /\
    lookup_key d "project_id" = Some project /\
    returns (from_service_account_info e) = true /\
    returns (new_client e) = true /\
    insert_rows_json e = Returns [].
Proof.
  unfold record_doctor_event, get_gcp_credentials. split.
  - destruct (get_secret_value e) as [[s|]|?]; try discriminate.
    destruct (json_loads e s) as [[d|truth]|?] eqn:Hl; try discriminate.
    + destruct d as [|kv d]; [discriminate|]. cbn [secret_truthy negb project_id].
      destruct (from_service_account_info e); [|discriminate].
      destruct (lookup_key (kv :: d) "project_id") as [p|] eqn:Hp;
        [|discriminate].
      destruct (new_client e); [|discriminate].
      destruct (insert_rows_json e) as [[|]|]; try discriminate.
      intros _. exists s, (kv :: d), p. repeat split; assumption.
    + destruct truth; cbn; [|discriminate].
      destruct (from_service_account_info e); discriminate.
  - intros (s & d & project & -> & -> & Hp & Hc & Hn & ->).
    destruct d as [|kv d]; [discriminate Hp|].
    cbn [secret_truthy negb project_id]. rewrite Hp.
    destruct (from_service_account_info e); [|discriminate Hc].
    destruct (new_client e); [|discriminate Hn]. reflexivity.
Qed.

(** X27. An insert, when one is issued, follows the one read of the
    secret [mediconnect/gcp/bigquery_key]; it goes to the table
    [doctor_onboarding_logs] of the data set [mediconnect_analytics]
    under the project of the secret, with a single row made of the three
    arguments and the time of the call. *)
Theorem row_is_inserted_under_the_project
        (e : env) (doctor event status_ table_id : string)
        (rows : list row) :
  In (InsertRowsJson table_id rows)
     (record_doctor_event e doctor event status_).2 ->
  exists secret_string d project,
    get_secret_value e = Returns (Some secret_string) /\
    json_loads e secret_string = Returns (SecretObject d) /\
    lookup_key d "project_id" = Some project /\
    table_id
    = py_str project +:+ ".mediconnect_analytics.doctor_onboarding_logs" /\
    rows = [{| doctor_id := doctor; event_type := event; status := status_;
               timestamp := utcnow_isoformat e |}] /\
    (record_doctor_event e doctor event status_).2
    = [ GetSecretValue "mediconnect/gcp/bigquery_key";
        InsertRowsJson table_id rows ].
Proof.
  unfold record_doctor_event, get_gcp_credentials.
  destruct (get_secret_value e) as [[s|]|?];
    try (intros [[=] | []]).
  destruct (json_loads e s) as [[d|truth]|?] eqn:Hl;
    try (intros [[=] | []]).
  - destruct d as [|kv d]; [intros [[=] | []]|].
    cbn [secret_truthy negb project_id].
    destruct (from_service_account_info e); [|intros [[=] | []]].
    destruct (lookup_key (kv :: d) "project_id") as [p|] eqn:Hp;
      [|intros [[=] | []]].
    destruct (new_client e); [|intros [[=] | []]].
    destruct (insert_rows_json e) as [[|]|]; cbn [snd app];
      (intros [[=] | [[= <- <-] | []]]);
      exists s, (kv :: d), p; repeat split; assumption.
  - destruct truth; cbn; [|intros [[=] | []]].
    destruct (from_service_account_info e); intros [[=] | []].
Qed.

Lemma row_is_inserted_under_the_project_witness :
  exists secret_string d project,
    get_secret_value analytics_up = Returns (Some secret_string) /\
    json_loads analytics_up secret_string = Returns (SecretObject d) /\
    lookup_key d "project_id" = Some project /\
    "mediconnect-analytics.mediconnect_analytics.doctor_onboarding_logs"
    = py_str project +:+ ".mediconnect_analytics.doctor_onboarding_logs" /\
    [{| doctor_id := "d1"; event_type := "diploma_verification";
        status := "passed"; timestamp := "2024-01-01T00:00:00" |}]
    = [{| doctor_id := "d1"; event_type := "diploma_verification";
          status := "passed";
          timestamp := utcnow_isoformat analytics_up |}] /\
    (record_doctor_event analytics_up "d1" "diploma_verification" "passed").2
    = [ GetSecretValue "mediconnect/gcp/bigquery_key";
        InsertRowsJson
          "mediconnect-analytics.mediconnect_analytics.doctor_onboarding_logs"
          [{| doctor_id := "d1"; event_type := "diploma_verification";
              status := "passed"; timestamp := "2024-01-01T00:00:00" |}] ].
Proof.
  apply (row_is_inserted_under_the_project analytics_up "d1"
           "diploma_verification" "passed").
  right. left. reflexivity.
Defined.
End AnalyticsMore.
